(** * The [direct] filter of goproxy: construction and request dispatch

    A shallow embedding of [httpproxy/filters/direct/direct.go].  The
    file follows the source top to bottom: the numeric types the
    constructor computes with ([int64], [time.Duration], [float32]), the
    configuration record, the objects [NewFilter] builds (the resilient
    dialer and the HTTP transport), and then [RoundTrip], whose effects
    on the inbound response writer and on the two tunnel connections are
    recorded as a trace of events. *)

From Stdlib Require Import ZArith List String Bool Lia.
From Stdlib Require Import Floats.SpecFloat.
From stdpp Require Import gmap strings pretty.

Import ListNotations.
Local Open Scope string_scope.
Local Open Scope Z_scope.

(** ** Machine integers and durations *)

Module Int64.

Definition modulus : Z := 2 ^ 64.
Definition min_int : Z := - 2 ^ 63.
Definition max_int : Z := 2 ^ 63 - 1.

(** Two's complement wrap-around of a mathematical integer. *)
Definition wrap (z : Z) : Z := (z + 2 ^ 63) mod modulus - 2 ^ 63.

Definition in_range (z : Z) : Prop := min_int <= z <= max_int.

(** Go's [*] on [int64]. *)
Definition mul (a b : Z) : Z := wrap (a * b).

End Int64.

Module time.

(** [type Duration int64], a count of nanoseconds. *)
Definition Duration := Z.

Definition Nanosecond : Duration := 1.
Definition Microsecond : Duration := 1000 * Nanosecond.
Definition Millisecond : Duration := 1000 * Microsecond.
Definition Second : Duration := 1000 * Millisecond.

End time.

(** ** IEEE 754 binary32, the representation of Go's [float32] *)

Module Float32.

Definition prec : Z := 24.
Definition emax : Z := 128.

Definition float32 := spec_float.

(** The [float32] nearest to an integer constant. *)
Definition of_Z (z : Z) : float32 := binary_normalize prec emax z 0 false.

(** The [float32] nearest to [m * 2^e]. *)
Definition of_scaled (m e : Z) : float32 := binary_normalize prec emax m e false.

Definition mul (x y : float32) : float32 := SFmul prec emax x y.

(** Conversion to [int64]: the fraction is discarded (truncation towards
    zero).  For a value that does not fit, Go leaves the result to the
    implementation; on amd64 the conversion instruction yields the
    minimum [int64], which is what is written here. *)
Definition to_int64 (x : float32) : Z :=
  match x with
  | S754_zero _ => 0
  | S754_finite s m e =>
      let mag := if 0 <=? e then Z.shiftl (Zpos m) e else Z.shiftr (Zpos m) (- e) in
      let v := if s then - mag else mag in
      if (Int64.min_int <=? v) && (v <=? Int64.max_int) then v else Int64.min_int
  | S754_infinity _ | S754_nan => Int64.min_int
  end.

End Float32.

(** ** Configuration ([type Config struct]) *)

Record DialerConfig := {
  Timeout : Z;
  KeepAlive : Z;
  DualStack : bool;
  RetryTimes : Z;
  RetryDelay : Float32.float32;
  DNSCacheExpiry : Z;
  DNSCacheSize : Z
}.

Record ProxyConfig := {
  Enabled : bool;
  URL : string
}.

Record TLSClientConfigConfig := {
  InsecureSkipVerify : bool;
  ClientSessionCacheSize : Z
}.

Record TransportConfig := {
  Dialer : DialerConfig;
  Proxy : ProxyConfig;
  TLSClientConfig : TLSClientConfigConfig;
  DisableKeepAlives : bool;
  DisableCompression : bool;
  TLSHandshakeTimeout : Z;
  MaxIdleConnsPerHost : Z
}.

Record Config := {
  Transport : TransportConfig
}.

Definition filterName : string := "direct".

(** ** The objects built by the constructor *)

(** Errors are kept structured: the three [fmt.Errorf] calls of
    [RoundTrip] become constructors, errors coming from collaborators carry
    their message. *)
Inductive error : Type :=
| ExternalError (msg : string)
| NotHijacker
| NotFlusher
| HijackError (cause : error).

Module url.
(** The part of [url.URL] the constructor looks at, with the text it was
    parsed from. *)
Record URL := { Scheme : string; Raw : string }.
End url.

Module net.
Record Dialer := {
  KeepAlive : time.Duration;
  Timeout : time.Duration;
  DualStack : bool
}.

(** [net.IP], a slice of bytes. *)
Definition IP := list Z.
End net.

Module lrucache.
Record LRUCache := { capacity : Z }.
Definition NewLRUCache (capacity : Z) : LRUCache := {| capacity := capacity |}.
End lrucache.

Module dialer.
Record Dialer := {
  Dialer_ : net.Dialer;
  RetryTimes : Z;
  RetryDelay : time.Duration;
  DNSCache : lrucache.LRUCache;
  DNSCacheExpiry : time.Duration;
  LoopbackAddrs : gset string
}.
End dialer.

Module tls.
Record Config := {
  InsecureSkipVerify : bool;
  ClientSessionCache : Z
}.
Definition NewLRUClientSessionCache (capacity : Z) : Z := capacity.
End tls.

Module proxy.
(** What [proxy.FromURL(u, forward, nil)] yields on success: a dialer that
    speaks the protocol named by [u] and reaches the proxy through
    [forward]. *)
Record Dialer := {
  proxy_url : url.URL;
  forward : dialer.Dialer
}.
End proxy.

Module http.

(** The two method values the constructor stores in [Transport.Dial]:
    [d.Dial] of the resilient dialer and [dialer.Dial] of a proxy dialer. *)
Inductive DialFunc : Type :=
| DialerDial (d : dialer.Dialer)
| ProxyDial (p : proxy.Dialer).

(** The fields of [http.Transport] the package touches.  A function field
    that is [nil] is [None]; [Proxy] holds the fixed URL given to
    [http.ProxyURL]. *)
Record Transport := {
  Proxy : option url.URL;
  Dial : option DialFunc;
  DialTLS : option DialFunc;
  TLSClientConfig : tls.Config;
  TLSHandshakeTimeout : time.Duration;
  DisableKeepAlives : bool;
  DisableCompression : bool;
  MaxIdleConnsPerHost : Z
}.

Definition set_Proxy (p : option url.URL) (tr : Transport) : Transport :=
  {| Proxy := p; Dial := Dial tr; DialTLS := DialTLS tr;
     TLSClientConfig := TLSClientConfig tr;
     TLSHandshakeTimeout := TLSHandshakeTimeout tr;
     DisableKeepAlives := DisableKeepAlives tr;
     DisableCompression := DisableCompression tr;
     MaxIdleConnsPerHost := MaxIdleConnsPerHost tr |}.

Definition set_Dial (f : option DialFunc) (tr : Transport) : Transport :=
  {| Proxy := Proxy tr; Dial := f; DialTLS := DialTLS tr;
     TLSClientConfig := TLSClientConfig tr;
     TLSHandshakeTimeout := TLSHandshakeTimeout tr;
     DisableKeepAlives := DisableKeepAlives tr;
     DisableCompression := DisableCompression tr;
     MaxIdleConnsPerHost := MaxIdleConnsPerHost tr |}.

Definition set_DialTLS (f : option DialFunc) (tr : Transport) : Transport :=
  {| Proxy := Proxy tr; Dial := Dial tr; DialTLS := f;
     TLSClientConfig := TLSClientConfig tr;
     TLSHandshakeTimeout := TLSHandshakeTimeout tr;
     DisableKeepAlives := DisableKeepAlives tr;
     DisableCompression := DisableCompression tr;
     MaxIdleConnsPerHost := MaxIdleConnsPerHost tr |}.

Definition StatusOK : Z := 200.

End http.

Record Filter := {
  Filter_Config : Config;
  transport : http.Transport
}.

(** ** Start-up

    [glog.Fatalf] logs and exits the process: whatever follows it in the
    constructor is never run.  A constructor is therefore a computation
    that either yields a value or halts the process. *)

Inductive startup (A : Type) : Type :=
| Started (a : A)
| Fatal (format : string) (culprit : string) (err : error).

Arguments Started {A} a.
Arguments Fatal {A} format culprit err.

#[global] Instance startup_ret : MRet startup := fun A a => Started a.

#[global] Instance startup_bind : MBind startup := fun A B k m =>
  match m with
  | Started a => k a
  | Fatal fmt c e => Fatal fmt c e
  end.

(** The collaborators of the constructor that live outside the package:
    the URL parser of the standard library, the proxy-dialer factory, and
    the enumeration of the host's interface addresses. *)
Record Platform := {
  url_Parse : string -> url.URL + error;
  proxy_FromURL : url.URL -> dialer.Dialer -> proxy.Dialer + error;
  LocalInterfaceIPs : list net.IP + error;
  IP_String : net.IP -> string
}.

Section Constructor.

Variable P : Platform.

(** Lines 78-95: the dialer literal, then the loop that fills
    [LoopbackAddrs] when the enumeration succeeded. *)
Definition newDialer (config : Config) : dialer.Dialer :=
  let c := Dialer (Transport config) in
  {| dialer.Dialer_ :=
       {| net.KeepAlive := Int64.mul (KeepAlive c) time.Second;
          net.Timeout := Int64.mul (Timeout c) time.Second;
          net.DualStack := DualStack c |};
     dialer.RetryTimes := RetryTimes c;
     dialer.RetryDelay :=
       Int64.mul (Float32.to_int64 (Float32.mul (RetryDelay c) (Float32.of_Z 1000)))
                 time.Second;
     dialer.DNSCache := lrucache.NewLRUCache (DNSCacheSize c);
     dialer.DNSCacheExpiry := Int64.mul (DNSCacheExpiry c) time.Second;
     dialer.LoopbackAddrs :=
       match LocalInterfaceIPs P with
       | inl ips => fold_left (fun addrs ip => {[ IP_String P ip ]} ∪ addrs) ips ∅
       | inr _ => ∅
       end |}.

(** Lines 97-106: the transport literal.  Fields the literal does not
    mention keep their zero value. *)
Definition newTransport (d : dialer.Dialer) (config : Config) : http.Transport :=
  let t := Transport config in
  {| http.Proxy := None;
     http.Dial := Some (http.DialerDial d);
     http.DialTLS := None;
     http.TLSClientConfig :=
       {| tls.InsecureSkipVerify := InsecureSkipVerify (TLSClientConfig t);
          tls.ClientSessionCache :=
            tls.NewLRUClientSessionCache (ClientSessionCacheSize (TLSClientConfig t)) |};
     http.TLSHandshakeTimeout := Int64.mul (TLSHandshakeTimeout t) time.Second;
     http.DisableKeepAlives := false;
     http.DisableCompression := DisableCompression t;
     http.MaxIdleConnsPerHost := MaxIdleConnsPerHost t |}.

(** Lines 108-129: the upstream-proxy switch. *)
Definition installProxy (d : dialer.Dialer) (config : Config) (tr : http.Transport)
  : startup http.Transport :=
  if Enabled (Proxy (Transport config)) then
    let raw := URL (Proxy (Transport config)) in
    fixedURL ← match url_Parse P raw with
                 | inl u => Started u
                 | inr err => Fatal "url.Parse(%#v) error: %s" raw err
                 end;
    if (url.Scheme fixedURL =? "http")%string || (url.Scheme fixedURL =? "https")%string then
      Started (http.set_DialTLS None (http.set_Dial None
                 (http.set_Proxy (Some fixedURL) tr)))
    else
      dialer ← match proxy_FromURL P fixedURL d with
                 | inl p => Started p
                 | inr err => Fatal "proxy.FromURL(%#v) error: %s" (url.Raw fixedURL) err
                 end;
      Started (http.set_Proxy None (http.set_DialTLS None
                 (http.set_Dial (Some (http.ProxyDial dialer)) tr)))
  else Started tr.

(** [NewFilter] returns the filter together with a [nil] error whenever it
    returns at all. *)
Definition NewFilter (config : Config) : startup (Filter * option error) :=
  let d := newDialer config in
  let tr := newTransport d config in
  tr ← installProxy d config tr;
  Started ({| Filter_Config := config; transport := tr |}, None).

Definition FilterName (f : Filter) : string := filterName.

End Constructor.

(** The same platform on a host that has no interface address at all. *)
Definition without_interfaces (P : Platform) : Platform :=
  {| url_Parse := url_Parse P;
     proxy_FromURL := proxy_FromURL P;
     LocalInterfaceIPs := inl [];
     IP_String := IP_String P |}.

(** ** Request dispatch

    What [RoundTrip] does to the outside world is recorded as a trace, in
    program order: log lines, the dial, the calls on the inbound response
    writer, the two relay copies and the deferred close. *)

Definition Conn := Z.

Inductive logarg : Type :=
| LogS (s : string)
| LogD (d : Z).

Inductive event : Type :=
| EvLog (format : string) (args : list logarg)
| EvDial (network address : string)
| EvWriteHeader (status : Z)
| EvFlush
| EvHijack
| EvGo (dst src : Conn)
| EvIoCopy (dst src : Conn)
| EvClose (c : Conn)
| EvTransportRoundTrip (url : string).

(** The inbound [http.ResponseWriter].  The type assertions
    [rw.(http.Hijacker)] and [rw.(http.Flusher)] succeed when the
    writer's dynamic type has the method: [as_Hijacker] is [Some r] for a
    writer that has [Hijack], [r] being what the call returns. *)
Record ResponseWriter := {
  rw_name : string;
  as_Hijacker : option (Conn + error);
  as_Flusher : bool
}.

(** The request context; the pipeline stores the response writer in it. *)
Record Context := {
  ctx_rw : ResponseWriter
}.

Definition GetResponseWriter (ctx : Context) : ResponseWriter := ctx_rw ctx.

Record Request := {
  Method : string;
  Host : string;
  Proto : string;
  RemoteAddr : string;
  URL_String : string
}.

Inductive Response : Type :=
| DummyResponse
| OriginResponse (StatusCode : Z) (ContentLength : string).

Definition StatusCode (r : Response) : Z :=
  match r with DummyResponse => 0 | OriginResponse c _ => c end.

Definition ContentLength (r : Response) : string :=
  match r with DummyResponse => EmptyString | OriginResponse _ l => l end.

(** The collaborators of a request: what a dial function answers, the
    transport's own round trip, the URL normaliser of [helpers], and
    whether [glog.V(2)] is on. *)
Record Network := {
  dial : http.DialFunc -> string -> string -> Conn + error;
  transport_RoundTrip : http.Transport -> Request -> Response + error;
  FixRequestURL : Request -> Request;
  glog_V2 : bool
}.

(** *** A small monad for a Go function body

    A statement either falls through to the next one, executes [return],
    or panics; each may append to the trace. *)

Definition RoundTripResult : Type := Context * option Response * option error.

Inductive flow (A : Type) : Type :=
| Next (a : A)
| Return (r : RoundTripResult)
| Panic (reason : string).

Arguments Next {A} a.
Arguments Return {A} r.
Arguments Panic {A} reason.

Definition Act (A : Type) : Type := list event -> flow A * list event.

#[global] Instance Act_ret : MRet Act := fun A a tr => (Next a, tr).

#[global] Instance Act_bind : MBind Act := fun A B k m tr =>
  match m tr with
  | (Next a, tr') => k a tr'
  | (Return r, tr') => (Return r, tr')
  | (Panic why, tr') => (Panic why, tr')
  end.

Definition emit (e : event) : Act unit := fun tr => (Next tt, (tr ++ [e])%list).

Definition return_ {A : Type} (r : RoundTripResult) : Act A := fun tr => (Return r, tr).

Definition panic {A : Type} (why : string) : Act A := fun tr => (Panic why, tr).

(** [defer cleanup] followed by the rest of the body: the cleanup runs
    when the function leaves, by [return] or by a panic. *)
Definition defer {A : Type} (cleanup : Act unit) (rest : Act A) : Act A := fun tr =>
  let (r, tr') := rest tr in
  (r, snd (cleanup tr')).

(** What a caller of a Go function observes. *)
Inductive result : Type :=
| Returns (r : RoundTripResult)
| Panics (reason : string).

Definition call (body : Act Empty_set) : result * list event :=
  match body [] with
  | (Next a, _) => match a with end
  | (Return r, tr) => (Returns r, tr)
  | (Panic why, tr) => (Panics why, tr)
  end.

Section Dispatch.

Variable N : Network.

Definition dquote : string := String (Ascii.ascii_of_nat 34) EmptyString.

Definition connect_format : string :=
  ("%s " ++ dquote ++ "DIRECT %s %s %s" ++ dquote ++ " - -")%string.

Definition forward_format : string :=
  ("%s " ++ dquote ++ "DIRECT %s %s %s" ++ dquote ++ " %d %s")%string.

Definition glog_V2_Infof (format : string) (args : list logarg) : Act unit :=
  if glog_V2 N then emit (EvLog format args) else mret tt.

(** Calling a function-typed field: a [nil] function panics. *)
Definition call_Dial (f : option http.DialFunc) (network address : string)
  : Act (Conn + error) :=
  match f with
  | None => panic "invalid memory address or nil pointer dereference"
  | Some df => emit (EvDial network address);; mret (dial N df network address)
  end.

Definition WriteHeader (rw : ResponseWriter) (status : Z) : Act unit :=
  emit (EvWriteHeader status).

Definition Flush : Act unit := emit EvFlush.

Definition Hijack (r : Conn + error) : Act (Conn + error) :=
  emit EvHijack;; mret r.

Definition Close (c : Conn) : Act unit := emit (EvClose c).

(** [go helpers.IoCopy(dst, src)]: the copy is started and the body goes
    on at once. *)
Definition go_IoCopy (dst src : Conn) : Act unit := emit (EvGo dst src).

(** [helpers.IoCopy(dst, src)]: the body goes on when the copy is over;
    its results are discarded by the caller. *)
Definition IoCopy (dst src : Conn) : Act unit := emit (EvIoCopy dst src).

Definition RoundTrip (f : Filter) (ctx : Context) (req : Request) : Act Empty_set :=
  if (Method req =? "CONNECT")%string then
    glog_V2_Infof connect_format
      [LogS (RemoteAddr req); LogS (Method req); LogS (Host req); LogS (Proto req)];;
    dialed ← call_Dial (http.Dial (transport f)) "tcp" (Host req);
    match dialed with
    | inr err => return_ (ctx, None, Some err)
    | inl rconn =>
        let rw := GetResponseWriter ctx in
        match as_Hijacker rw with
        | None => return_ (ctx, None, Some NotHijacker)
        | Some hijacker =>
            if negb (as_Flusher rw) then return_ (ctx, None, Some NotFlusher)
            else
              WriteHeader rw http.StatusOK;;
              Flush;;
              hijacked ← Hijack hijacker;
              match hijacked with
              | inr err => return_ (ctx, None, Some (HijackError err))
              | inl lconn =>
                  defer (Close lconn)
                    (go_IoCopy rconn lconn;;
                     IoCopy lconn rconn;;
                     return_ (ctx, Some DummyResponse, None))
              end
        end
    end
  else
    let req := FixRequestURL N req in
    emit (EvTransportRoundTrip (URL_String req));;
    match transport_RoundTrip N (transport f) req with
    | inr err => return_ (ctx, None, Some err)
    | inl resp =>
        (if negb (RemoteAddr req =? EmptyString)%string then
           glog_V2_Infof forward_format
             [LogS (RemoteAddr req); LogS (Method req); LogS (URL_String req);
              LogS (Proto req); LogD (StatusCode resp); LogS (ContentLength resp)]
         else mret tt);;
        return_ (ctx, Some resp, None)
    end.

End Dispatch.

(** ** Observations on traces *)

(** The line [RoundTrip] logs on entering the CONNECT branch, when
    [glog.V(2)] is on. *)
Definition connect_log (N : Network) (req : Request) : list event :=
  if glog_V2 N
  then [EvLog connect_format
          [LogS (RemoteAddr req); LogS (Method req); LogS (Host req); LogS (Proto req)]]
  else [].

(** A list of events in which the status-200 header and then a flush
    occur. *)
Definition acknowledged (tr : list event) : Prop :=
  exists a b c, tr = (a ++ EvWriteHeader http.StatusOK :: b ++ EvFlush :: c)%list.


(** The events that start the tunnel: taking over the inbound connection
    and either relay copy. *)
Definition starts_tunnel (e : event) : bool :=
  match e with
  | EvHijack | EvGo _ _ | EvIoCopy _ _ => true
  | _ => false
  end.

(** The events that send something to the inbound client. *)
Definition writes_to_client (e : event) : bool :=
  match e with
  | EvWriteHeader _ | EvFlush => true
  | _ => false
  end.

(** Scans a trace and checks that no tunnel event comes before the
    status-200 header has been written and then flushed.  [stage] counts
    what has been seen so far: nothing, the header, the flush. *)
Definition advance (stage : nat) (e : event) : nat :=
  match stage, e with
  | 0%nat, EvWriteHeader status => if status =? http.StatusOK then 1%nat else 0%nat
  | 1%nat, EvFlush => 2%nat
  | _, _ => stage
  end.

Fixpoint ack_precedes_tunnel (stage : nat) (tr : list event) : bool :=
  match tr with
  | [] => true
  | e :: tr' =>
      if starts_tunnel e then Nat.eqb stage 2 && ack_precedes_tunnel stage tr'
      else ack_precedes_tunnel (advance stage e) tr'
  end.

(** What a stage of the scan says about the events read so far. *)
Definition stage_ok (stage : nat) (seen : list event) : Prop :=
  match stage with
  | 1%nat => exists a b, seen = (a ++ EvWriteHeader http.StatusOK :: b)%list
  | 2%nat => acknowledged seen
  | _ => True
  end.

Definition count_events (p : event -> bool) (tr : list event) : nat :=
  length (filter (fun e => p e = true) tr).

Definition is_dial (e : event) : bool :=
  match e with EvDial _ _ => true | _ => false end.

(** *** Closes over a whole tunnel session

    A relay copy works on the two connections it is given.  What it does
    to them is a list of operations; the handler's trace only shows that
    the copy was called or started. *)
Inductive conn_op : Type :=
| OpRead (c : Conn) (n : Z)
| OpWrite (c : Conn) (n : Z)
| OpClose (c : Conn).

#[global] Instance conn_op_eq_dec : EqDecision conn_op.
Proof. solve_decision. Defined.

Definition closes (c : Conn) (ops : list conn_op) : nat :=
  length (filter (fun o => o = OpClose c) ops).

(** The number of times [c] is closed in a session: by the handler itself,
    and inside the copies it called or started, whichever ends first. *)
Fixpoint session_closes (copy : Conn -> Conn -> list conn_op) (c : Conn)
  (tr : list event) : nat :=
  match tr with
  | [] => 0
  | EvClose c' :: tr' => ((if decide (c' = c) then 1 else 0) + session_closes copy c tr')%nat
  | EvGo dst src :: tr' => (closes c (copy dst src) + session_closes copy c tr')%nat
  | EvIoCopy dst src :: tr' => (closes c (copy dst src) + session_closes copy c tr')%nat
  | _ :: tr' => session_closes copy c tr'
  end.

(** Modelled from the spec: [helpers.IoCopy] is not among the sources.
    The spec describes the relay as a byte-exact duplex pipe that copies
    bytes from one connection to the other; like [io.Copy], whose
    signature the call sites fit, such a copy reads from [src] and writes
    to [dst], chunk by chunk, and closes neither. *)
Definition copy_only (chunks : list Z) (dst src : Conn) : list conn_op :=
  flat_map (fun n => [OpRead src n; OpWrite dst n]) chunks.

(** *** Further observations *)

Definition is_close (e : event) : bool :=
  match e with EvClose _ => true | _ => false end.

Definition is_log (e : event) : bool :=
  match e with EvLog _ _ => true | _ => false end.

Definition is_header (e : event) : bool :=
  match e with EvWriteHeader _ => true | _ => false end.

Definition is_flush (e : event) : bool :=
  match e with EvFlush => true | _ => false end.

(** The schemes the proxy switch hands to the transport itself. *)
Definition native_scheme (u : url.URL) : bool :=
  (url.Scheme u =? "http")%string || (url.Scheme u =? "https")%string.

(** ** Registration at load time ([func init])

    [init] reads the configuration of the filter from the store and
    registers a constructor under the filter's name; either failure is
    fatal. *)

(** [new(Config)]: every field at its zero value. *)
Definition zeroConfig : Config :=
  {| Transport :=
       {| Dialer := {| Timeout := 0; KeepAlive := 0; DualStack := false;
                       RetryTimes := 0; RetryDelay := S754_zero false;
                       DNSCacheExpiry := 0; DNSCacheSize := 0 |};
          Proxy := {| Enabled := false; URL := EmptyString |};
          TLSClientConfig := {| InsecureSkipVerify := false; ClientSessionCacheSize := 0 |};
          DisableKeepAlives := false;
          DisableCompression := false;
          TLSHandshakeTimeout := 0;
          MaxIdleConnsPerHost := 0 |} |}.

(** The collaborators of [init]:
    [storage.LookupStoreByConfig(name).UnmarshallJson(filename, config)],
    which fills the configuration it is given or fails, and
    [filters.Register(name, entry)], which answers an error or [nil]. *)
Record Registrar := {
  UnmarshallJson : string -> string -> Config -> Config + error;
  Register : string -> option error
}.

(** [filters.RegisteredFilter] as [init] fills it: the name it is
    registered under and its [New] function. *)
Record RegisteredFilter := {
  registered_name : string;
  New : unit -> startup (Filter * option error)
}.

Section Registration.

Variable P : Platform.
Variable R : Registrar.

Definition init : startup RegisteredFilter :=
  let filename := (filterName ++ ".json")%string in
  config ← match UnmarshallJson R filterName filename zeroConfig with
           | inl config => Started config
           | inr err => Fatal "storage.ReadJsonConfig(%#v) failed: %s" filename err
           end;
  match Register R filterName with
  | Some err => Fatal "Register(%#v) error: %s" filterName err
  | None =>
      Started {| registered_name := filterName;
                 New := fun _ => NewFilter P config |}
  end.

End Registration.

(** ** Test doubles

    Concrete collaborators, configurations and requests on which the
    definitions above can be run. *)

Module Sample.

Definition is_letter (c : Ascii.ascii) : bool :=
  let n := Ascii.nat_of_ascii c in
  ((97 <=? n) && (n <=? 122) || (65 <=? n) && (n <=? 90))%nat.

Definition is_scheme_punct (c : Ascii.ascii) : bool :=
  let n := Ascii.nat_of_ascii c in
  ((48 <=? n) && (n <=? 57) || (n =? 43) || (n =? 45) || (n =? 46))%nat.

Definition to_lower (c : Ascii.ascii) : Ascii.ascii :=
  let n := Ascii.nat_of_ascii c in
  if ((65 <=? n) && (n <=? 90))%nat then Ascii.ascii_of_nat (n + 32) else c.

(** The scheme-splitting loop of [net/url]: letters go on; a digit, [+],
    [-] or [.] may not come first; a colon ends the scheme and may not
    come first either; anything else means there is no scheme.  [seen] is
    the prefix read so far, in reverse. *)
Fixpoint getScheme (seen : list Ascii.ascii) (rest : string) : string + error :=
  match rest with
  | EmptyString => inl EmptyString
  | String c rest' =>
      if is_letter c then getScheme (c :: seen) rest'
      else if is_scheme_punct c then
        match seen with
        | [] => inl EmptyString
        | _ => getScheme (c :: seen) rest'
        end
      else if (Ascii.nat_of_ascii c =? 58)%nat then
        match seen with
        | [] => inr (ExternalError "missing protocol scheme")
        | _ => inl (string_of_list_ascii (rev seen))
        end
      else inl EmptyString
  end.

Definition parse_url (raw : string) : url.URL + error :=
  match getScheme [] raw with
  | inl s => inl {| url.Scheme := string_of_list_ascii (map to_lower (list_ascii_of_string s));
                    url.Raw := raw |}
  | inr e => inr e
  end.

(** A proxy-dialer factory that knows the SOCKS schemes only. *)
Definition from_url (u : url.URL) (forward : dialer.Dialer) : proxy.Dialer + error :=
  if (url.Scheme u =? "socks5")%string || (url.Scheme u =? "socks4")%string
  then inl {| proxy.proxy_url := u; proxy.forward := forward |}
  else inr (ExternalError "proxy: unknown scheme").

Definition platform : Platform :=
  {| url_Parse := parse_url;
     proxy_FromURL := from_url;
     LocalInterfaceIPs := inl [[127; 0; 0; 1]; [192; 168; 1; 7]];
     IP_String := fun ip => String.concat "." (map pretty.pretty ip) |}.

(** The same host when the interface enumeration fails. *)
Definition platform_no_ifaces : Platform :=
  {| url_Parse := parse_url;
     proxy_FromURL := from_url;
     LocalInterfaceIPs := inr (ExternalError "route ip+net: no such network interface");
     IP_String := fun ip => String.concat "." (map pretty.pretty ip) |}.

(** 0.5 as a [float32]. *)
Definition half : Float32.float32 := Float32.of_scaled 1 (-1).

Definition config (proxy_enabled : bool) (proxy_url : string) (no_keepalive : bool) : Config :=
  {| Transport :=
       {| Dialer := {| Timeout := 30; KeepAlive := 30; DualStack := false;
                       RetryTimes := 2; RetryDelay := half;
                       DNSCacheExpiry := 3600; DNSCacheSize := 8192 |};
          Proxy := {| Enabled := proxy_enabled; URL := proxy_url |};
          TLSClientConfig := {| InsecureSkipVerify := false; ClientSessionCacheSize := 1000 |};
          DisableKeepAlives := no_keepalive;
          DisableCompression := true;
          TLSHandshakeTimeout := 30;
          MaxIdleConnsPerHost := 8 |} |}.

Definition direct_config : Config := config false EmptyString true.
Definition http_proxy_config : Config := config true "http://127.0.0.1:8087" false.
Definition socks_proxy_config : Config := config true "socks5://127.0.0.1:1080" false.
Definition bad_url_config : Config := config true "://127.0.0.1:8087" false.
Definition bad_scheme_config : Config := config true "gopher://127.0.0.1:70" false.

Definition connect_request : Request :=
  {| Method := "CONNECT"; Host := "example.org:443"; Proto := "HTTP/1.1";
     RemoteAddr := "10.0.0.9:51000"; URL_String := "//example.org:443" |}.

Definition rconn : Conn := 7.
Definition lconn : Conn := 5.

(** A network where every dial succeeds, or every dial is refused. *)
Definition network (reachable : bool) : Network :=
  {| dial := fun _ _ _ =>
       if reachable then inl rconn else inr (ExternalError "connection refused");
     transport_RoundTrip := fun _ _ => inl (OriginResponse 200 "12");
     FixRequestURL := fun r => r;
     glog_V2 := false |}.

(** Inbound writers: a full one, one whose hijack fails, and two that
    lack a capability. *)
Definition full_writer : ResponseWriter :=
  {| rw_name := "http.response"; as_Hijacker := Some (inl lconn); as_Flusher := true |}.

Definition broken_hijack_writer : ResponseWriter :=
  {| rw_name := "http.response";
     as_Hijacker := Some (inr (ExternalError "http: connection has been hijacked"));
     as_Flusher := true |}.

Definition no_hijack_writer : ResponseWriter :=
  {| rw_name := "recorder"; as_Hijacker := None; as_Flusher := true |}.

Definition no_flush_writer : ResponseWriter :=
  {| rw_name := "hijack only"; as_Hijacker := Some (inl lconn); as_Flusher := false |}.

Definition ctx_of (rw : ResponseWriter) : Context := {| ctx_rw := rw |}.

(** The filter a start-up yields, when there is one. *)
Definition filter_of (s : startup (Filter * option error)) : option Filter :=
  match s with
  | Started (f, _) => Some f
  | Fatal _ _ _ => None
  end.

Definition direct_filter : Filter :=
  {| Filter_Config := direct_config;
     transport := newTransport (newDialer platform direct_config) direct_config |}.

End Sample.

(** A store that holds one configuration file, and a registry that
    refuses the names in [taken]. *)
Module Sample_registrar.

Definition registrar (stored : option Config) (taken : list string) : Registrar :=
  {| UnmarshallJson := fun store filename zero =>
       if (filename =? "direct.json")%string then
         match stored with
         | Some config => inl config
         | None => inr (ExternalError "unexpected end of JSON input")
         end
       else inr (ExternalError "no such file");
     Register := fun name =>
       if existsb (String.eqb name) taken
       then Some (ExternalError "filter already registered")
       else None |}.

End Sample_registrar.

(** ** Properties of the constructor *)

Section ConstructorFacts.

Variable P : Platform.

Lemma installProxy_disabled d config tr :
  Enabled (Proxy (Transport config)) = false ->
  installProxy P d config tr = Started tr.
Proof. intros Hoff. unfold installProxy. now rewrite Hoff. Qed.

Lemma NewFilter_direct config :
  Enabled (Proxy (Transport config)) = false ->
  NewFilter P config =
    Started ({| Filter_Config := config;
                transport := newTransport (newDialer P config) config |}, None).
Proof.
  intros Hoff. unfold NewFilter.
  now rewrite (installProxy_disabled _ _ _ Hoff).
Qed.

(** Every filter that comes out of the constructor holds the configuration
    it was built from and a transport obtained from the literal of lines
    97-106 by the proxy switch. *)
Lemma NewFilter_started config f e :
  NewFilter P config = Started (f, e) ->
  e = None /\ Filter_Config f = config /\
  installProxy P (newDialer P config) config
    (newTransport (newDialer P config) config) = Started (transport f).
Proof.
  unfold NewFilter, mbind, startup_bind.
  destruct (installProxy P _ config _) as [tr | ? ? ?]; [| discriminate].
  intros [= <- <-]. auto.
Qed.

(** The proxy switch only touches [Proxy], [Dial] and [DialTLS]. *)
Lemma installProxy_policy d config tr tr' :
  installProxy P d config tr = Started tr' ->
  http.DisableKeepAlives tr' = http.DisableKeepAlives tr /\
  http.DisableCompression tr' = http.DisableCompression tr /\
  http.TLSHandshakeTimeout tr' = http.TLSHandshakeTimeout tr /\
  http.MaxIdleConnsPerHost tr' = http.MaxIdleConnsPerHost tr /\
  http.TLSClientConfig tr' = http.TLSClientConfig tr.
Proof.
  unfold installProxy, mbind, startup_bind.
  destruct (Enabled _); [| now intros [= <-]].
  destruct (url_Parse P _) as [u | err]; [| discriminate].
  destruct (_ || _).
  - now intros [= <-].
  - destruct (proxy_FromURL P u d) as [p | err]; [| discriminate].
    now intros [= <-].
Qed.

(** With a native-scheme upstream the transport is left without a dial
    function. *)
Lemma installProxy_native d config tr u :
  Enabled (Proxy (Transport config)) = true ->
  url_Parse P (URL (Proxy (Transport config))) = inl u ->
  url.Scheme u = "http" \/ url.Scheme u = "https" ->
  installProxy P d config tr =
    Started (http.set_DialTLS None (http.set_Dial None (http.set_Proxy (Some u) tr))).
Proof.
  intros Hon Hparse Hscheme. unfold installProxy, mbind, startup_bind.
  rewrite Hon, Hparse.
  destruct Hscheme as [-> | ->]; reflexivity.
Qed.

(** The only resilient dialer a returned transport can dial through
    directly is the one it was given. *)
Lemma installProxy_direct_dial d config tr tr' d' :
  installProxy P d config tr = Started tr' ->
  http.Dial tr = Some (http.DialerDial d) ->
  http.Dial tr' = Some (http.DialerDial d') ->
  d' = d.
Proof.
  unfold installProxy, mbind, startup_bind.
  destruct (Enabled _); [| intros [= <-] -> [= ->]; reflexivity].
  destruct (url_Parse P _) as [u | err]; [| discriminate].
  destruct (_ || _).
  - intros [= <-]. discriminate.
  - destruct (proxy_FromURL P u d) as [p | err]; [| discriminate].
    intros [= <-]. discriminate.
Qed.

Lemma Second_in_nanoseconds : time.Second = 1000000000.
Proof. reflexivity. Qed.

Lemma wrap_small z : Int64.in_range z -> Int64.wrap z = z.
Proof.
  unfold Int64.in_range, Int64.min_int, Int64.max_int, Int64.wrap, Int64.modulus.
  intros Hr. rewrite Z.mod_small by lia. lia.
Qed.

End ConstructorFacts.

(** C2, as the code has it.  A configured [retryDelay] of 0.5 is
    multiplied by 1000 and the product, 500, is then counted in seconds:
    the dialer of the filter sleeps 500 s between attempts, a thousand
    times the 500 ms the configuration asks for. *)
Theorem NewFilter_RetryDelay_scaled_by_thousand (P : Platform) (config : Config) :
  Enabled (Proxy (Transport config)) = false ->
  RetryDelay (Dialer (Transport config)) = Float32.of_scaled 1 (-1) ->
  exists f d,
    NewFilter P config = Started (f, None) /\
    http.Dial (transport f) = Some (http.DialerDial d) /\
    dialer.RetryDelay d = 500 * time.Second /\
    dialer.RetryDelay d <> 500 * time.Millisecond.
Proof.
  intros Hoff Hdelay.
  eexists _, (newDialer P config).
  split; [apply NewFilter_direct, Hoff |].
  split; [reflexivity |].
  cbn [newDialer dialer.RetryDelay]. rewrite Hdelay.
  split; [vm_compute; reflexivity | vm_compute; discriminate].
Qed.

Lemma NewFilter_RetryDelay_scaled_by_thousand_witness :
  exists f d,
    NewFilter Sample.platform Sample.direct_config = Started (f, None) /\
    http.Dial (transport f) = Some (http.DialerDial d) /\
    dialer.RetryDelay d = 500 * time.Second /\
    dialer.RetryDelay d <> 500 * time.Millisecond.
Proof.
  apply (NewFilter_RetryDelay_scaled_by_thousand Sample.platform Sample.direct_config);
    reflexivity.
Defined.

(** Other delays go the same way: one second becomes a thousand, a
    quarter of a second two hundred and fifty. *)
Example RetryDelay_other_samples :
  map (fun x => Int64.mul (Float32.to_int64 (Float32.mul x (Float32.of_Z 1000))) time.Second)
      [Float32.of_Z 1; Float32.of_scaled 1 (-2); Float32.of_Z 0] =
  [1000 * time.Second; 250 * time.Second; 0].
Proof. vm_compute. reflexivity. Qed.

(** The handshake timeout is the configured number of seconds whenever
    that many nanoseconds fit an [int64]. *)
Lemma TLSHandshakeTimeout_in_seconds (P : Platform) (config : Config) f e :
  NewFilter P config = Started (f, e) ->
  Int64.in_range (TLSHandshakeTimeout (Transport config) * time.Second) ->
  http.TLSHandshakeTimeout (transport f) = TLSHandshakeTimeout (Transport config) * time.Second.
Proof.
  intros Hnew Hr.
  destruct (NewFilter_started P _ _ _ Hnew) as (_ & _ & Hinst).
  destruct (installProxy_policy P _ _ _ _ Hinst) as (_ & _ & Ht & _).
  rewrite Ht. cbn. unfold Int64.mul. now apply wrap_small.
Qed.

(** C3, as the code has it.  The transport of every filter the
    constructor returns takes the compression flag, the handshake timeout
    and the idle-connection limit from the configuration, but its
    keep-alive-disable flag is off whatever the configuration says: the
    transport literal never mentions it. *)
Theorem NewFilter_ignores_DisableKeepAlives (P : Platform) (config : Config)
  (f : Filter) (e : option error) :
  NewFilter P config = Started (f, e) ->
  DisableKeepAlives (Transport config) = true ->
  http.DisableKeepAlives (transport f) = false /\
  http.DisableKeepAlives (transport f) <> DisableKeepAlives (Transport config) /\
  http.DisableCompression (transport f) = DisableCompression (Transport config) /\
  http.TLSHandshakeTimeout (transport f) =
    Int64.mul (TLSHandshakeTimeout (Transport config)) time.Second /\
  http.MaxIdleConnsPerHost (transport f) = MaxIdleConnsPerHost (Transport config).
Proof.
  intros Hnew Hset.
  destruct (NewFilter_started P _ _ _ Hnew) as (_ & _ & Hinst).
  destruct (installProxy_policy P _ _ _ _ Hinst) as (Hka & Hc & Ht & Hm & _).
  rewrite Hka, Hc, Ht, Hm, Hset. cbn. repeat split. discriminate.
Qed.

Lemma NewFilter_ignores_DisableKeepAlives_witness :
  http.DisableKeepAlives (transport Sample.direct_filter) = false /\
  http.DisableKeepAlives (transport Sample.direct_filter) <>
    DisableKeepAlives (Transport Sample.direct_config) /\
  http.DisableCompression (transport Sample.direct_filter) =
    DisableCompression (Transport Sample.direct_config) /\
  http.TLSHandshakeTimeout (transport Sample.direct_filter) =
    Int64.mul (TLSHandshakeTimeout (Transport Sample.direct_config)) time.Second /\
  http.MaxIdleConnsPerHost (transport Sample.direct_filter) =
    MaxIdleConnsPerHost (Transport Sample.direct_config).
Proof.
  apply (NewFilter_ignores_DisableKeepAlives Sample.platform Sample.direct_config
           Sample.direct_filter None); reflexivity.
Defined.

(** C7.  With upstream proxying enabled, a proxy URL that does not parse,
    or that parses to a scheme for which the proxy-dialer factory reports
    an error, makes the constructor halt the process: the start-up is
    [Fatal] and there is no filter for any request to reach. *)
Theorem NewFilter_malformed_proxy_URL_is_fatal (P : Platform) (config : Config) :
  Enabled (Proxy (Transport config)) = true ->
  (exists err, url_Parse P (URL (Proxy (Transport config))) = inr err) \/
  (exists u err,
     url_Parse P (URL (Proxy (Transport config))) = inl u /\
     url.Scheme u <> "http" /\ url.Scheme u <> "https" /\
     proxy_FromURL P u (newDialer P config) = inr err) ->
  (exists format culprit err, NewFilter P config = Fatal format culprit err) /\
  (forall f e, NewFilter P config <> Started (f, e)).
Proof.
  intros Hon Hbad.
  assert (Hfatal : exists format culprit err, NewFilter P config = Fatal format culprit err).
  { unfold NewFilter, installProxy, mbind, startup_bind. rewrite Hon.
    destruct Hbad as [[err Hparse] | (u & err & Hparse & Hh & Hs & Hfrom)].
    - rewrite Hparse. eauto.
    - rewrite Hparse.
      apply String.eqb_neq in Hh. apply String.eqb_neq in Hs.
      rewrite Hh, Hs. cbn [orb]. rewrite Hfrom. eauto. }
  split; [exact Hfatal |].
  destruct Hfatal as (format & culprit & err & ->). discriminate.
Qed.

Lemma NewFilter_malformed_proxy_URL_is_fatal_witness :
  ((exists format culprit err,
      NewFilter Sample.platform Sample.bad_url_config = Fatal format culprit err) /\
   (forall f e, NewFilter Sample.platform Sample.bad_url_config <> Started (f, e))) /\
  ((exists format culprit err,
      NewFilter Sample.platform Sample.bad_scheme_config = Fatal format culprit err) /\
   (forall f e, NewFilter Sample.platform Sample.bad_scheme_config <> Started (f, e))).
Proof.
  split.
  - apply (NewFilter_malformed_proxy_URL_is_fatal Sample.platform Sample.bad_url_config);
      [reflexivity |].
    left. eexists. reflexivity.
  - apply (NewFilter_malformed_proxy_URL_is_fatal Sample.platform Sample.bad_scheme_config);
      [reflexivity |].
    right. eexists _, _.
    split; [reflexivity |].
    split; [discriminate |].
    split; [discriminate | reflexivity].
Defined.

(** C10.  When the enumeration of the interface addresses fails, the
    dialer is built with an empty loopback set and nothing else changes:
    the constructor behaves exactly as on a host without interfaces, any
    filter it returns comes with a [nil] error and, where its transport
    dials directly, does so through a dialer whose loopback set is empty,
    and with proxying off it does return one. *)
Theorem NewFilter_enumeration_failure_is_silent (P : Platform) (config : Config)
  (err : error) :
  LocalInterfaceIPs P = inr err ->
  dialer.LoopbackAddrs (newDialer P config) = ∅ /\
  NewFilter P config = NewFilter (without_interfaces P) config /\
  (forall f e, NewFilter P config = Started (f, e) ->
     e = None /\
     forall d, http.Dial (transport f) = Some (http.DialerDial d) ->
               dialer.LoopbackAddrs d = ∅) /\
  (Enabled (Proxy (Transport config)) = false ->
   exists f, NewFilter P config = Started (f, None) /\
             http.Dial (transport f) = Some (http.DialerDial (newDialer P config))).
Proof.
  intros Hfail.
  assert (Hd : newDialer P config = newDialer (without_interfaces P) config).
  { unfold newDialer. rewrite Hfail. reflexivity. }
  assert (Hempty : dialer.LoopbackAddrs (newDialer P config) = ∅).
  { unfold newDialer; cbn; now rewrite Hfail. }
  split; [exact Hempty |].
  split; [unfold NewFilter; rewrite Hd; reflexivity |].
  split.
  - intros f e Hnew. destruct (NewFilter_started P _ _ _ Hnew) as (He & _ & Hinst).
    split; [exact He |]. intros d Hdial.
    now rewrite (installProxy_direct_dial P _ _ _ _ d Hinst eq_refl Hdial).
  - intros Hoff. eexists. split; [apply NewFilter_direct, Hoff | reflexivity].
Qed.

Lemma NewFilter_enumeration_failure_is_silent_witness :
  dialer.LoopbackAddrs (newDialer Sample.platform_no_ifaces Sample.direct_config) = ∅ /\
  NewFilter Sample.platform_no_ifaces Sample.direct_config =
    NewFilter (without_interfaces Sample.platform_no_ifaces) Sample.direct_config /\
  (forall f e, NewFilter Sample.platform_no_ifaces Sample.direct_config = Started (f, e) ->
     e = None /\
     forall d, http.Dial (transport f) = Some (http.DialerDial d) ->
               dialer.LoopbackAddrs d = ∅) /\
  (Enabled (Proxy (Transport Sample.direct_config)) = false ->
   exists f, NewFilter Sample.platform_no_ifaces Sample.direct_config = Started (f, None) /\
             http.Dial (transport f) =
               Some (http.DialerDial (newDialer Sample.platform_no_ifaces Sample.direct_config))).
Proof.
  apply (NewFilter_enumeration_failure_is_silent Sample.platform_no_ifaces
           Sample.direct_config
           (ExternalError "route ip+net: no such network interface")).
  reflexivity.
Defined.

(** On a host whose enumeration works the set is not empty: the failure
    is what empties it. *)
Example loopback_set_when_enumeration_works :
  "127.0.0.1" ∈ dialer.LoopbackAddrs (newDialer Sample.platform Sample.direct_config).
Proof. vm_compute. set_solver. Qed.

(** ** Properties of the dispatcher *)

Ltac run_body :=
  unfold call, RoundTrip, connect_log, call_Dial, glog_V2_Infof, WriteHeader, Flush,
    Hijack, Close, go_IoCopy, IoCopy, defer, GetResponseWriter,
    mbind, mret, Act_bind, Act_ret, emit, return_, panic.

Section DispatchFacts.

Variable N : Network.

(** The deferred call runs however the rest of the body leaves. *)
Lemma defer_runs_on_every_exit {A : Type} (c : Conn) (rest : Act A) (tr : list event) :
  fst (defer (Close c) rest tr) = fst (rest tr) /\
  snd (defer (Close c) rest tr) = (snd (rest tr) ++ [EvClose c])%list.
Proof. unfold defer, Close, emit. destruct (rest tr) as [r tr']. split; reflexivity. Qed.

(** *** The CONNECT branch, case by case *)

Lemma RoundTrip_CONNECT_nil_dial f ctx req :
  Method req = "CONNECT" ->
  http.Dial (transport f) = None ->
  call (RoundTrip N f ctx req) =
    (Panics "invalid memory address or nil pointer dereference", connect_log N req).
Proof.
  intros Hm Hd. run_body. rewrite Hm, Hd. cbn.
  destruct (glog_V2 N); reflexivity.
Qed.

Lemma RoundTrip_CONNECT_dial_error f ctx req df err :
  Method req = "CONNECT" ->
  http.Dial (transport f) = Some df ->
  dial N df "tcp" (Host req) = inr err ->
  call (RoundTrip N f ctx req) =
    (Returns (ctx, None, Some err),
     (connect_log N req ++ [EvDial "tcp" (Host req)])%list).
Proof.
  intros Hm Hd Hr. run_body. rewrite Hm, Hd. cbn.
  destruct (glog_V2 N); cbn; rewrite Hr; reflexivity.
Qed.

Lemma RoundTrip_CONNECT_not_hijacker f ctx req df rconn :
  Method req = "CONNECT" ->
  http.Dial (transport f) = Some df ->
  dial N df "tcp" (Host req) = inl rconn ->
  as_Hijacker (ctx_rw ctx) = None ->
  call (RoundTrip N f ctx req) =
    (Returns (ctx, None, Some NotHijacker),
     (connect_log N req ++ [EvDial "tcp" (Host req)])%list).
Proof.
  intros Hm Hd Hr Hh. run_body. rewrite Hm, Hd. cbn.
  destruct (glog_V2 N); cbn; rewrite Hr, Hh; reflexivity.
Qed.

Lemma RoundTrip_CONNECT_not_flusher f ctx req df rconn hijacker :
  Method req = "CONNECT" ->
  http.Dial (transport f) = Some df ->
  dial N df "tcp" (Host req) = inl rconn ->
  as_Hijacker (ctx_rw ctx) = Some hijacker ->
  as_Flusher (ctx_rw ctx) = false ->
  call (RoundTrip N f ctx req) =
    (Returns (ctx, None, Some NotFlusher),
     (connect_log N req ++ [EvDial "tcp" (Host req)])%list).
Proof.
  intros Hm Hd Hr Hh Hf. run_body. rewrite Hm, Hd. cbn.
  destruct (glog_V2 N); cbn; rewrite Hr, Hh, Hf; reflexivity.
Qed.

Lemma RoundTrip_CONNECT_hijack_error f ctx req df rconn err :
  Method req = "CONNECT" ->
  http.Dial (transport f) = Some df ->
  dial N df "tcp" (Host req) = inl rconn ->
  as_Hijacker (ctx_rw ctx) = Some (inr err) ->
  as_Flusher (ctx_rw ctx) = true ->
  call (RoundTrip N f ctx req) =
    (Returns (ctx, None, Some (HijackError err)),
     (connect_log N req ++
      [EvDial "tcp" (Host req); EvWriteHeader http.StatusOK; EvFlush; EvHijack])%list).
Proof.
  intros Hm Hd Hr Hh Hf. run_body. rewrite Hm, Hd. cbn.
  destruct (glog_V2 N); cbn; rewrite Hr, Hh, Hf; reflexivity.
Qed.

Lemma RoundTrip_CONNECT_tunnel f ctx req df rconn lconn :
  Method req = "CONNECT" ->
  http.Dial (transport f) = Some df ->
  dial N df "tcp" (Host req) = inl rconn ->
  as_Hijacker (ctx_rw ctx) = Some (inl lconn) ->
  as_Flusher (ctx_rw ctx) = true ->
  call (RoundTrip N f ctx req) =
    (Returns (ctx, Some DummyResponse, None),
     (connect_log N req ++
      [EvDial "tcp" (Host req); EvWriteHeader http.StatusOK; EvFlush; EvHijack;
       EvGo rconn lconn; EvIoCopy lconn rconn; EvClose lconn])%list).
Proof.
  intros Hm Hd Hr Hh Hf. run_body. rewrite Hm, Hd. cbn.
  destruct (glog_V2 N); cbn; rewrite Hr, Hh, Hf; reflexivity.
Qed.

End DispatchFacts.

Lemma count_events_app p (a b : list event) :
  count_events p (a ++ b) = (count_events p a + count_events p b)%nat.
Proof. unfold count_events. now rewrite filter_app, length_app. Qed.

Lemma connect_log_quiet N req :
  count_events writes_to_client (connect_log N req) = 0%nat /\
  count_events is_dial (connect_log N req) = 0%nat /\
  count_events starts_tunnel (connect_log N req) = 0%nat.
Proof. unfold connect_log. destruct (glog_V2 N); repeat split; reflexivity. Qed.

(** C1, as the code has it.  With a native-scheme upstream the
    constructor stores the proxy URL in the transport and clears its dial
    function; the CONNECT branch calls that function all the same, so the
    handler panics before any dial: no outbound connection is opened,
    through the proxy or otherwise. *)
Theorem RoundTrip_CONNECT_native_proxy_panics (P : Platform) (N : Network)
  (config : Config) (u : url.URL) (ctx : Context) (req : Request) :
  Enabled (Proxy (Transport config)) = true ->
  url_Parse P (URL (Proxy (Transport config))) = inl u ->
  url.Scheme u = "http" \/ url.Scheme u = "https" ->
  Method req = "CONNECT" ->
  exists f,
    NewFilter P config = Started (f, None) /\
    http.Proxy (transport f) = Some u /\
    http.Dial (transport f) = None /\
    (exists why, fst (call (RoundTrip N f ctx req)) = Panics why) /\
    count_events is_dial (snd (call (RoundTrip N f ctx req))) = 0%nat.
Proof.
  intros Hon Hparse Hscheme Hm.
  eexists. split.
  { unfold NewFilter. rewrite (installProxy_native P _ _ _ u Hon Hparse Hscheme).
    reflexivity. }
  cbn [transport http.Proxy http.Dial http.set_DialTLS http.set_Dial http.set_Proxy].
  split; [reflexivity |]. split; [reflexivity |].
  rewrite RoundTrip_CONNECT_nil_dial by (assumption || reflexivity).
  split; [eexists; reflexivity | apply connect_log_quiet].
Qed.

Lemma RoundTrip_CONNECT_native_proxy_panics_witness :
  exists f,
    NewFilter Sample.platform Sample.http_proxy_config = Started (f, None) /\
    http.Proxy (transport f) =
      Some {| url.Scheme := "http"; url.Raw := "http://127.0.0.1:8087" |} /\
    http.Dial (transport f) = None /\
    (exists why,
       fst (call (RoundTrip (Sample.network true) f (Sample.ctx_of Sample.full_writer)
                    Sample.connect_request)) = Panics why) /\
    count_events is_dial
      (snd (call (RoundTrip (Sample.network true) f (Sample.ctx_of Sample.full_writer)
                    Sample.connect_request))) = 0%nat.
Proof.
  apply (RoundTrip_CONNECT_native_proxy_panics Sample.platform (Sample.network true)
           Sample.http_proxy_config
           {| url.Scheme := "http"; url.Raw := "http://127.0.0.1:8087" |}).
  - reflexivity.
  - reflexivity.
  - left. reflexivity.
  - reflexivity.
Defined.

(** C5.  A CONNECT request whose dial fails comes back with the dial's
    error and no response, and nothing has been sent to the inbound
    client: the trace holds no header write and no flush. *)
Theorem RoundTrip_CONNECT_dial_failure (N : Network) (f : Filter) (ctx : Context)
  (req : Request) (df : http.DialFunc) (err : error) :
  Method req = "CONNECT" ->
  http.Dial (transport f) = Some df ->
  dial N df "tcp" (Host req) = inr err ->
  fst (call (RoundTrip N f ctx req)) = Returns (ctx, None, Some err) /\
  count_events writes_to_client (snd (call (RoundTrip N f ctx req))) = 0%nat.
Proof.
  intros Hm Hd Hr.
  rewrite (RoundTrip_CONNECT_dial_error N f ctx req df err Hm Hd Hr).
  split; [reflexivity |]. cbn [snd].
  rewrite count_events_app. now rewrite (proj1 (connect_log_quiet N req)).
Qed.

Lemma RoundTrip_CONNECT_dial_failure_witness :
  fst (call (RoundTrip (Sample.network false) Sample.direct_filter
               (Sample.ctx_of Sample.full_writer) Sample.connect_request)) =
    Returns (Sample.ctx_of Sample.full_writer, None,
             Some (ExternalError "connection refused")) /\
  count_events writes_to_client
    (snd (call (RoundTrip (Sample.network false) Sample.direct_filter
                  (Sample.ctx_of Sample.full_writer) Sample.connect_request))) = 0%nat.
Proof.
  apply (RoundTrip_CONNECT_dial_failure (Sample.network false) Sample.direct_filter
           (Sample.ctx_of Sample.full_writer) Sample.connect_request
           (http.DialerDial (newDialer Sample.platform Sample.direct_config)));
    reflexivity.
Defined.

(** C8.  When the dial succeeded but the inbound writer lacks [Hijack] or
    [Flush], the handler returns the matching capability error at once,
    with no response: one dial has been made and no other, and nothing
    was sent to the client. *)
Theorem RoundTrip_CONNECT_missing_capability (N : Network) (f : Filter) (ctx : Context)
  (req : Request) (df : http.DialFunc) (rconn : Conn) :
  Method req = "CONNECT" ->
  http.Dial (transport f) = Some df ->
  dial N df "tcp" (Host req) = inl rconn ->
  as_Hijacker (ctx_rw ctx) = None \/ as_Flusher (ctx_rw ctx) = false ->
  (exists e, (e = NotHijacker \/ e = NotFlusher) /\
             fst (call (RoundTrip N f ctx req)) = Returns (ctx, None, Some e)) /\
  snd (call (RoundTrip N f ctx req)) = (connect_log N req ++ [EvDial "tcp" (Host req)])%list /\
  count_events is_dial (snd (call (RoundTrip N f ctx req))) = 1%nat /\
  count_events writes_to_client (snd (call (RoundTrip N f ctx req))) = 0%nat /\
  count_events starts_tunnel (snd (call (RoundTrip N f ctx req))) = 0%nat.
Proof.
  intros Hm Hd Hr Hcap.
  assert (Hcall : exists e, (e = NotHijacker \/ e = NotFlusher) /\
            call (RoundTrip N f ctx req) =
              (Returns (ctx, None, Some e),
               (connect_log N req ++ [EvDial "tcp" (Host req)])%list)).
  { destruct (as_Hijacker (ctx_rw ctx)) as [hijacker |] eqn:Hh.
    - destruct Hcap as [Hcap | Hf]; [discriminate |].
      exists NotFlusher. split; [now right |].
      now apply RoundTrip_CONNECT_not_flusher with (df := df) (rconn := rconn)
                                                  (hijacker := hijacker).
    - exists NotHijacker. split; [now left |].
      now apply RoundTrip_CONNECT_not_hijacker with (df := df) (rconn := rconn). }
  destruct Hcall as (e & He & ->). cbn [fst snd].
  destruct (connect_log_quiet N req) as (Hw & Hdl & Ht).
  rewrite !count_events_app, Hw, Hdl, Ht.
  repeat split; eauto.
Qed.

Lemma RoundTrip_CONNECT_missing_capability_witness :
  let r := call (RoundTrip (Sample.network true) Sample.direct_filter
                   (Sample.ctx_of Sample.no_flush_writer) Sample.connect_request) in
  (exists e, (e = NotHijacker \/ e = NotFlusher) /\
             fst r = Returns (Sample.ctx_of Sample.no_flush_writer, None, Some e)) /\
  snd r = (connect_log (Sample.network true) Sample.connect_request ++
           [EvDial "tcp" (Host Sample.connect_request)])%list /\
  count_events is_dial (snd r) = 1%nat /\
  count_events writes_to_client (snd r) = 0%nat /\
  count_events starts_tunnel (snd r) = 0%nat.
Proof.
  apply (RoundTrip_CONNECT_missing_capability (Sample.network true) Sample.direct_filter
           (Sample.ctx_of Sample.no_flush_writer) Sample.connect_request
           (http.DialerDial (newDialer Sample.platform Sample.direct_config))
           Sample.rconn).
  - reflexivity.
  - reflexivity.
  - reflexivity.
  - right. reflexivity.
Defined.

(** C9.  When the dial succeeded and the writer has both capabilities
    but [Hijack] itself fails, the handler returns an error and no
    response although the status-200 header has been written and flushed
    before: the trace shows header, flush and then the failed hijack. *)
Theorem RoundTrip_CONNECT_hijack_failure_after_ack (N : Network) (f : Filter)
  (ctx : Context) (req : Request) (df : http.DialFunc) (rconn : Conn) (err : error) :
  Method req = "CONNECT" ->
  http.Dial (transport f) = Some df ->
  dial N df "tcp" (Host req) = inl rconn ->
  as_Hijacker (ctx_rw ctx) = Some (inr err) ->
  as_Flusher (ctx_rw ctx) = true ->
  fst (call (RoundTrip N f ctx req)) = Returns (ctx, None, Some (HijackError err)) /\
  snd (call (RoundTrip N f ctx req)) =
    (connect_log N req ++
     [EvDial "tcp" (Host req); EvWriteHeader http.StatusOK; EvFlush; EvHijack])%list /\
  acknowledged (snd (call (RoundTrip N f ctx req))).
Proof.
  intros Hm Hd Hr Hh Hf.
  rewrite (RoundTrip_CONNECT_hijack_error N f ctx req df rconn err Hm Hd Hr Hh Hf).
  cbn [fst snd]. repeat split.
  exists (connect_log N req ++ [EvDial "tcp" (Host req)])%list, [], [EvHijack].
  now rewrite <- app_assoc.
Qed.

Lemma RoundTrip_CONNECT_hijack_failure_after_ack_witness :
  let r := call (RoundTrip (Sample.network true) Sample.direct_filter
                   (Sample.ctx_of Sample.broken_hijack_writer) Sample.connect_request) in
  fst r = Returns (Sample.ctx_of Sample.broken_hijack_writer, None,
                   Some (HijackError (ExternalError "http: connection has been hijacked"))) /\
  snd r = (connect_log (Sample.network true) Sample.connect_request ++
           [EvDial "tcp" (Host Sample.connect_request); EvWriteHeader http.StatusOK;
            EvFlush; EvHijack])%list /\
  acknowledged (snd r).
Proof.
  apply (RoundTrip_CONNECT_hijack_failure_after_ack (Sample.network true)
           Sample.direct_filter (Sample.ctx_of Sample.broken_hijack_writer)
           Sample.connect_request
           (http.DialerDial (newDialer Sample.platform Sample.direct_config))
           Sample.rconn (ExternalError "http: connection has been hijacked"));
    reflexivity.
Defined.

(** *** Order of the acknowledgment and the tunnel *)

Lemma acknowledged_snoc tr e : acknowledged tr -> acknowledged (tr ++ [e]).
Proof.
  intros (a & b & c & ->). exists a, b, (c ++ [e])%list.
  rewrite <- !app_assoc. cbn. now rewrite <- app_assoc.
Qed.

Lemma advance_ok stage seen e :
  starts_tunnel e = false ->
  stage_ok stage seen -> stage_ok (advance stage e) (seen ++ [e]).
Proof.
  intros Hnt Hok.
  destruct stage as [| [| [| n]]]; cbn in *.
  - destruct e; cbn; trivial.
    destruct (Z.eqb_spec status http.StatusOK) as [-> |]; cbn; trivial.
    exists seen, []. reflexivity.
  - destruct Hok as (a & b & ->).
    destruct e; cbn;
      try (exists a; eexists; rewrite <- app_assoc; cbn; reflexivity).
    exists a, b, []. now rewrite <- app_assoc.
  - destruct e; now apply acknowledged_snoc.
  - destruct e; trivial.
Qed.

Lemma ack_precedes_tunnel_sound tr : forall stage seen,
  stage_ok stage seen ->
  ack_precedes_tunnel stage tr = true ->
  forall pre e post,
    tr = (pre ++ e :: post)%list -> starts_tunnel e = true ->
    acknowledged (seen ++ pre).
Proof.
  induction tr as [| x tr IH]; intros stage seen Hok Hchk pre e post Hsplit He.
  - now destruct pre.
  - destruct pre as [| y pre]; cbn in Hsplit; injection Hsplit as -> ->.
    + cbn in Hchk. rewrite He in Hchk.
      apply andb_true_iff in Hchk as [Hstage _].
      apply Nat.eqb_eq in Hstage. subst stage.
      now rewrite app_nil_r.
    + cbn in Hchk.
      replace (seen ++ y :: pre)%list with ((seen ++ [y]) ++ pre)%list
        by now rewrite <- app_assoc.
      destruct (starts_tunnel y) eqn:Hy.
      * apply andb_true_iff in Hchk as [Hstage Hchk].
        apply Nat.eqb_eq in Hstage. subst stage.
        apply (IH 2%nat (seen ++ [y])%list) with (e := e) (post := post); auto.
        now apply acknowledged_snoc.
      * apply (IH (advance stage y) (seen ++ [y])%list) with (e := e) (post := post); auto.
        now apply advance_ok.
Qed.

Lemma RoundTrip_trace_checked N f ctx req :
  ack_precedes_tunnel 0 (snd (call (RoundTrip N f ctx req))) = true.
Proof.
  run_body.
  destruct (Method req =? "CONNECT")%string.
  - destruct (http.Dial (transport f)) as [df |]; cbn;
      destruct (glog_V2 N); cbn; try reflexivity;
      destruct (dial N df "tcp" (Host req)) as [rconn | err]; cbn; try reflexivity;
      destruct (as_Hijacker (ctx_rw ctx)) as [[lconn | err] |]; cbn; try reflexivity;
      destruct (as_Flusher (ctx_rw ctx)); cbn; reflexivity.
  - cbn. destruct (transport_RoundTrip N (transport f) (FixRequestURL N req)); cbn;
      try reflexivity.
    destruct (negb _); cbn; try reflexivity.
    destruct (glog_V2 N); reflexivity.
Qed.

(** C6.  Wherever the hijack of the inbound connection or a relay copy
    occurs in the trace of a request, the events before it contain the
    write of the status-200 header and, after that write, a flush. *)
Theorem RoundTrip_ack_flushed_before_tunnel (N : Network) (f : Filter) (ctx : Context)
  (req : Request) (pre post : list event) (e : event) :
  snd (call (RoundTrip N f ctx req)) = (pre ++ e :: post)%list ->
  starts_tunnel e = true ->
  acknowledged pre.
Proof.
  intros Hsplit He.
  apply (ack_precedes_tunnel_sound _ 0%nat [] I (RoundTrip_trace_checked N f ctx req)
           pre e post Hsplit He).
Qed.

Lemma RoundTrip_ack_flushed_before_tunnel_witness :
  acknowledged [EvDial "tcp" "example.org:443"; EvWriteHeader 200; EvFlush].
Proof.
  apply (RoundTrip_ack_flushed_before_tunnel (Sample.network true) Sample.direct_filter
           (Sample.ctx_of Sample.full_writer) Sample.connect_request
           [EvDial "tcp" "example.org:443"; EvWriteHeader 200; EvFlush]
           [EvGo Sample.rconn Sample.lconn; EvIoCopy Sample.lconn Sample.rconn;
            EvClose Sample.lconn]
           EvHijack); reflexivity.
Defined.

(** *** Closes of the two tunnel connections *)

Lemma closes_copy_only chunks dst src c : closes c (copy_only chunks dst src) = 0%nat.
Proof.
  unfold closes, copy_only.
  induction chunks as [| n chunks IH]; [reflexivity |].
  cbn [flat_map app]. rewrite !filter_cons.
  repeat (destruct (decide _) as [Heq | _]; [discriminate Heq |]).
  exact IH.
Qed.

Lemma session_closes_app copy c (a b : list event) :
  session_closes copy c (a ++ b) = (session_closes copy c a + session_closes copy c b)%nat.
Proof.
  induction a as [| e a IH]; [reflexivity |].
  destruct e; cbn; rewrite IH; lia.
Qed.

Lemma session_closes_connect_log copy c N req :
  session_closes copy c (connect_log N req) = 0%nat.
Proof. unfold connect_log. destruct (glog_V2 N); reflexivity. Qed.

(** The count for either connection in an established tunnel: the
    handler adds its one deferred close of the inbound connection and
    none of the outbound one to whatever the two copies do. *)
Lemma session_closes_tunnel copy N f ctx req df rconn lconn :
  Method req = "CONNECT" ->
  http.Dial (transport f) = Some df ->
  dial N df "tcp" (Host req) = inl rconn ->
  as_Hijacker (ctx_rw ctx) = Some (inl lconn) ->
  as_Flusher (ctx_rw ctx) = true ->
  rconn <> lconn ->
  let tr := snd (call (RoundTrip N f ctx req)) in
  session_closes copy lconn tr =
    (closes lconn (copy rconn lconn) + closes lconn (copy lconn rconn) + 1)%nat /\
  session_closes copy rconn tr =
    (closes rconn (copy rconn lconn) + closes rconn (copy lconn rconn))%nat.
Proof.
  intros Hm Hd Hr Hh Hf Hne tr. subst tr.
  rewrite (RoundTrip_CONNECT_tunnel N f ctx req df rconn lconn Hm Hd Hr Hh Hf).
  cbn [snd]. rewrite !session_closes_app, !session_closes_connect_log. cbn.
  destruct (decide (lconn = lconn)) as [_ | Hn]; [| congruence].
  destruct (decide (lconn = rconn)) as [Heq | _]; [congruence |].
  lia.
Qed.

(** Whatever a relay copy does, as long as what it does to its source
    and to its destination does not depend on which connection plays
    which part, the two connections are never both closed exactly once. *)
Lemma tunnel_never_closes_both_once copy N f ctx req df rconn lconn (nd ns : nat) :
  Method req = "CONNECT" ->
  http.Dial (transport f) = Some df ->
  dial N df "tcp" (Host req) = inl rconn ->
  as_Hijacker (ctx_rw ctx) = Some (inl lconn) ->
  as_Flusher (ctx_rw ctx) = true ->
  rconn <> lconn ->
  (forall dst src, dst <> src ->
     closes dst (copy dst src) = nd /\ closes src (copy dst src) = ns) ->
  ~ (session_closes copy lconn (snd (call (RoundTrip N f ctx req))) = 1%nat /\
     session_closes copy rconn (snd (call (RoundTrip N f ctx req))) = 1%nat).
Proof.
  intros Hm Hd Hr Hh Hf Hne Hrole.
  destruct (session_closes_tunnel copy N f ctx req df rconn lconn Hm Hd Hr Hh Hf Hne)
    as [Hl Hrc].
  rewrite Hl, Hrc.
  destruct (Hrole rconn lconn Hne) as [H1 H2].
  destruct (Hrole lconn rconn (not_eq_sym Hne)) as [H3 H4].
  rewrite H1, H2, H3, H4. lia.
Qed.

(** C4, as the code has it.  Once the hijack has succeeded, the handler
    returns the sentinel response with the close of the inbound
    connection as its last act, and over the whole session the inbound
    connection is closed exactly once; the outbound connection is not
    closed at all, since the handler never closes it and a relay copy
    that only copies does not either. *)
Theorem RoundTrip_tunnel_leaves_outbound_open (copy : Conn -> Conn -> list conn_op)
  (N : Network) (f : Filter) (ctx : Context) (req : Request) (df : http.DialFunc)
  (rconn lconn : Conn) :
  Method req = "CONNECT" ->
  http.Dial (transport f) = Some df ->
  dial N df "tcp" (Host req) = inl rconn ->
  as_Hijacker (ctx_rw ctx) = Some (inl lconn) ->
  as_Flusher (ctx_rw ctx) = true ->
  rconn <> lconn ->
  (forall dst src c, closes c (copy dst src) = 0%nat) ->
  fst (call (RoundTrip N f ctx req)) = Returns (ctx, Some DummyResponse, None) /\
  last (snd (call (RoundTrip N f ctx req))) = Some (EvClose lconn) /\
  session_closes copy lconn (snd (call (RoundTrip N f ctx req))) = 1%nat /\
  session_closes copy rconn (snd (call (RoundTrip N f ctx req))) = 0%nat.
Proof.
  intros Hm Hd Hr Hh Hf Hne Hcopy.
  destruct (session_closes_tunnel copy N f ctx req df rconn lconn Hm Hd Hr Hh Hf Hne)
    as [Hl Hrc].
  rewrite Hl, Hrc, !Hcopy.
  rewrite (RoundTrip_CONNECT_tunnel N f ctx req df rconn lconn Hm Hd Hr Hh Hf).
  cbn [fst snd]. repeat split.
  unfold connect_log. destruct (glog_V2 N); reflexivity.
Qed.

Lemma RoundTrip_tunnel_leaves_outbound_open_witness :
  let r := call (RoundTrip (Sample.network true) Sample.direct_filter
                   (Sample.ctx_of Sample.full_writer) Sample.connect_request) in
  fst r = Returns (Sample.ctx_of Sample.full_writer, Some DummyResponse, None) /\
  last (snd r) = Some (EvClose Sample.lconn) /\
  session_closes (copy_only [1460; 512]) Sample.lconn (snd r) = 1%nat /\
  session_closes (copy_only [1460; 512]) Sample.rconn (snd r) = 0%nat.
Proof.
  apply (RoundTrip_tunnel_leaves_outbound_open (copy_only [1460; 512])
           (Sample.network true) Sample.direct_filter
           (Sample.ctx_of Sample.full_writer) Sample.connect_request
           (http.DialerDial (newDialer Sample.platform Sample.direct_config))
           Sample.rconn Sample.lconn).
  - reflexivity.
  - reflexivity.
  - reflexivity.
  - reflexivity.
  - reflexivity.
  - discriminate.
  - intros dst src c. apply closes_copy_only.
Defined.

(** ** The model at work *)

(** A generic upstream: the transport dials through the proxy dialer,
    which forwards through the resilient dialer, and a CONNECT request
    builds the tunnel. *)
Example socks_upstream_tunnel :
  match Sample.filter_of (NewFilter Sample.platform Sample.socks_proxy_config) with
  | Some f =>
      http.Proxy (transport f) = None /\
      (exists p, http.Dial (transport f) = Some (http.ProxyDial p) /\
                 proxy.forward p = newDialer Sample.platform Sample.socks_proxy_config) /\
      call (RoundTrip (Sample.network true) f (Sample.ctx_of Sample.full_writer)
              Sample.connect_request) =
        (Returns (Sample.ctx_of Sample.full_writer, Some DummyResponse, None),
         [EvDial "tcp" "example.org:443"; EvWriteHeader 200; EvFlush; EvHijack;
          EvGo Sample.rconn Sample.lconn; EvIoCopy Sample.lconn Sample.rconn;
          EvClose Sample.lconn])
  | None => False
  end.
Proof. cbn. split; [reflexivity |]. split; [eexists; split; reflexivity | reflexivity]. Qed.

(** Any other method goes to the transport's own round trip and the
    response comes back unchanged. *)
Example forward_request :
  call (RoundTrip (Sample.network true) Sample.direct_filter
          (Sample.ctx_of Sample.no_hijack_writer)
          {| Method := "GET"; Host := "example.org"; Proto := "HTTP/1.1";
             RemoteAddr := "10.0.0.9:51000"; URL_String := "http://example.org/" |}) =
    (Returns (Sample.ctx_of Sample.no_hijack_writer, Some (OriginResponse 200 "12"), None),
     [EvTransportRoundTrip "http://example.org/"]).
Proof. reflexivity. Qed.

(** A writer that cannot be hijacked: the dial has been made, nothing was
    sent. *)
Example connect_without_hijacker :
  call (RoundTrip (Sample.network true) Sample.direct_filter
          (Sample.ctx_of Sample.no_hijack_writer) Sample.connect_request) =
    (Returns (Sample.ctx_of Sample.no_hijack_writer, None, Some NotHijacker),
     [EvDial "tcp" "example.org:443"]).
Proof. reflexivity. Qed.

(** ** Further properties of the dispatcher *)

(** Walks every path of [RoundTrip]: each test the body makes is
    decided both ways, in the order of the source, with the decision
    kept as an equation. *)
Ltac step_path N f ctx req :=
  match goal with
  | |- context [(Method req =? "CONNECT")%string] =>
      destruct (Method req =? "CONNECT")%string eqn:Hmethod
  | |- context [http.Dial (transport f)] =>
      destruct (http.Dial (transport f)) as [? |] eqn:Hdial
  | |- context [glog_V2 N] =>
      destruct (glog_V2 N) eqn:Hverbose
  | |- context [dial N ?d "tcp" (Host req)] =>
      destruct (dial N d "tcp" (Host req)) as [? | ?] eqn:Hdialed
  | |- context [as_Hijacker (ctx_rw ctx)] =>
      destruct (as_Hijacker (ctx_rw ctx)) as [[? | ?] |] eqn:Hhijacker
  | |- context [as_Flusher (ctx_rw ctx)] =>
      destruct (as_Flusher (ctx_rw ctx)) eqn:Hflusher
  | |- context [transport_RoundTrip N (transport f) (FixRequestURL N req)] =>
      destruct (transport_RoundTrip N (transport f) (FixRequestURL N req))
        as [? | ?] eqn:Hforward
  | |- context [(RemoteAddr (FixRequestURL N req) =? EmptyString)%string] =>
      destruct (RemoteAddr (FixRequestURL N req) =? EmptyString)%string eqn:Hremote
  end; cbn.

Ltac each_path N f ctx req := run_body; cbn; repeat step_path N f ctx req.

Lemma not_CONNECT_eqb (req : Request) :
  Method req <> "CONNECT" -> (Method req =? "CONNECT")%string = false.
Proof. apply String.eqb_neq. Qed.

(** The forward branch, on a transport error and on a response. *)
Lemma RoundTrip_forward_error_path N f ctx req err :
  Method req <> "CONNECT" ->
  transport_RoundTrip N (transport f) (FixRequestURL N req) = inr err ->
  call (RoundTrip N f ctx req) =
    (Returns (ctx, None, Some err),
     [EvTransportRoundTrip (URL_String (FixRequestURL N req))]).
Proof.
  intros Hm Hrt. apply not_CONNECT_eqb in Hm. run_body. rewrite Hm. cbn.
  rewrite Hrt. reflexivity.
Qed.

(** The line logged after a forwarded request. *)
Lemma RoundTrip_forward_response_path N f ctx req resp :
  Method req <> "CONNECT" ->
  transport_RoundTrip N (transport f) (FixRequestURL N req) = inl resp ->
  call (RoundTrip N f ctx req) =
    (Returns (ctx, Some resp, None),
     EvTransportRoundTrip (URL_String (FixRequestURL N req)) ::
     (if negb (RemoteAddr (FixRequestURL N req) =? EmptyString)%string && glog_V2 N
      then [EvLog forward_format
              [LogS (RemoteAddr (FixRequestURL N req)); LogS (Method (FixRequestURL N req));
               LogS (URL_String (FixRequestURL N req)); LogS (Proto (FixRequestURL N req));
               LogD (StatusCode resp); LogS (ContentLength resp)]]
      else [])).
Proof.
  intros Hm Hrt. apply not_CONNECT_eqb in Hm. run_body. rewrite Hm. cbn.
  rewrite Hrt.
  destruct (RemoteAddr (FixRequestURL N req) =? EmptyString)%string; cbn;
    [reflexivity |].
  destruct (glog_V2 N); reflexivity.
Qed.

Lemma call_panics_iff_nil_dial N f ctx req :
  (exists why, fst (call (RoundTrip N f ctx req)) = Panics why) <->
  Method req = "CONNECT" /\ http.Dial (transport f) = None.
Proof.
  split.
  - each_path N f ctx req; intros [why Hwhy]; try discriminate.
    all: split; [now apply String.eqb_eq | reflexivity].
  - intros [Hm Hd]. rewrite (RoundTrip_CONNECT_nil_dial N f ctx req Hm Hd).
    eexists. reflexivity.
Qed.

(** X1.  A request makes the handler panic exactly when its method is
    CONNECT and the transport of the filter has no dial function; every
    other request returns. *)
Theorem RoundTrip_panics_iff (N : Network) (f : Filter) (ctx : Context) (req : Request) :
  ((exists why, fst (call (RoundTrip N f ctx req)) = Panics why) <->
   Method req = "CONNECT" /\ http.Dial (transport f) = None) /\
  ((exists r, fst (call (RoundTrip N f ctx req)) = Returns r) <->
   Method req <> "CONNECT" \/ http.Dial (transport f) <> None).
Proof.
  split; [apply call_panics_iff_nil_dial |].
  pose proof (call_panics_iff_nil_dial N f ctx req) as Hp.
  destruct (fst (call (RoundTrip N f ctx req))) as [r | why] eqn:Hc.
  - split; [| eauto]. intros _.
    destruct (String.eqb_spec (Method req) "CONNECT") as [Hm | Hm]; [| now left].
    right. intros Hd. destruct (proj2 Hp (conj Hm Hd)) as [why Hwhy]. discriminate.
  - split.
    + intros [r Hr]. discriminate.
    + intros Hor. destruct (proj1 Hp (ex_intro _ why eq_refl)) as [Hm Hd].
      destruct Hor; contradiction.
Qed.

(** X2.  Whenever the handler returns, the context it returns is the one
    it was given, and it returns either a response or an error, never
    both and never neither. *)
Theorem RoundTrip_returns_response_xor_error (N : Network) (f : Filter) (ctx : Context)
  (req : Request) (ctx' : Context) (resp : option Response) (err : option error) :
  fst (call (RoundTrip N f ctx req)) = Returns (ctx', resp, err) ->
  ctx' = ctx /\ (resp = None <-> err <> None).
Proof.
  each_path N f ctx req; intros Hret; try discriminate Hret.
  all: injection Hret as <- <- <-; split; [reflexivity |]; split; congruence.
Qed.

Lemma RoundTrip_returns_response_xor_error_witness :
  Sample.ctx_of Sample.no_flush_writer = Sample.ctx_of Sample.no_flush_writer /\
  (@None Response = None <-> Some NotFlusher <> None).
Proof.
  apply (RoundTrip_returns_response_xor_error (Sample.network true) Sample.direct_filter
           (Sample.ctx_of Sample.no_flush_writer) Sample.connect_request).
  reflexivity.
Defined.

(** X3.  A request of any method other than CONNECT whose round trip
    through the transport fails comes back with that very error and no
    response; the normalised request went to the transport, and no line
    is logged even when [glog.V(2)] is on. *)
Theorem RoundTrip_forward_propagates_error (N : Network) (f : Filter) (ctx : Context)
  (req : Request) (err : error) :
  Method req <> "CONNECT" ->
  transport_RoundTrip N (transport f) (FixRequestURL N req) = inr err ->
  fst (call (RoundTrip N f ctx req)) = Returns (ctx, None, Some err) /\
  snd (call (RoundTrip N f ctx req)) =
    [EvTransportRoundTrip (URL_String (FixRequestURL N req))] /\
  count_events is_log (snd (call (RoundTrip N f ctx req))) = 0%nat.
Proof.
  intros Hm Hrt. rewrite (RoundTrip_forward_error_path N f ctx req err Hm Hrt).
  repeat split.
Qed.

(** X4.  A request of any method other than CONNECT that the transport
    answers comes back with that response and a [nil] error; a line is
    logged exactly when [glog.V(2)] is on and the request carries a
    remote address. *)
Theorem RoundTrip_forward_returns_response (N : Network) (f : Filter) (ctx : Context)
  (req : Request) (resp : Response) :
  Method req <> "CONNECT" ->
  transport_RoundTrip N (transport f) (FixRequestURL N req) = inl resp ->
  fst (call (RoundTrip N f ctx req)) = Returns (ctx, Some resp, None) /\
  (count_events is_log (snd (call (RoundTrip N f ctx req))) = 1%nat <->
   glog_V2 N = true /\ RemoteAddr (FixRequestURL N req) <> EmptyString) /\
  (count_events is_log (snd (call (RoundTrip N f ctx req))) = 0%nat <->
   glog_V2 N = false \/ RemoteAddr (FixRequestURL N req) = EmptyString).
Proof.
  intros Hm Hrt. rewrite (RoundTrip_forward_response_path N f ctx req resp Hm Hrt).
  cbn [fst snd]. split; [reflexivity |].
  destruct (String.eqb_spec (RemoteAddr (FixRequestURL N req)) EmptyString) as [-> | Hne];
    destruct (glog_V2 N); cbn; split; split; intros; try discriminate;
    try reflexivity; try (split; congruence); try tauto.
  all: try (destruct H as [? ?]; congruence).
  all: try (destruct H; congruence).
Qed.

Lemma RoundTrip_forward_returns_response_witness :
  let r := call (RoundTrip (Sample.network true) Sample.direct_filter
                   (Sample.ctx_of Sample.no_hijack_writer)
                   {| Method := "GET"; Host := "example.org"; Proto := "HTTP/1.1";
                      RemoteAddr := "10.0.0.9:51000";
                      URL_String := "http://example.org/" |}) in
  fst r = Returns (Sample.ctx_of Sample.no_hijack_writer, Some (OriginResponse 200 "12"), None) /\
  (count_events is_log (snd r) = 1%nat <->
   false = true /\ "10.0.0.9:51000" <> EmptyString) /\
  (count_events is_log (snd r) = 0%nat <->
   false = false \/ "10.0.0.9:51000" = EmptyString).
Proof.
  apply (RoundTrip_forward_returns_response (Sample.network true) Sample.direct_filter
           (Sample.ctx_of Sample.no_hijack_writer)
           {| Method := "GET"; Host := "example.org"; Proto := "HTTP/1.1";
              RemoteAddr := "10.0.0.9:51000"; URL_String := "http://example.org/" |}
           (OriginResponse 200 "12")).
  - discriminate.
  - reflexivity.
Defined.

(** A transport that answers every request with an error. *)
Lemma RoundTrip_forward_propagates_error_witness :
  let N := {| dial := fun _ _ _ => inl Sample.rconn;
              transport_RoundTrip := fun _ _ => inr (ExternalError "EOF");
              FixRequestURL := fun r => r;
              glog_V2 := true |} in
  let req := {| Method := "POST"; Host := "example.org"; Proto := "HTTP/1.1";
                RemoteAddr := "10.0.0.9:51000"; URL_String := "http://example.org/" |} in
  let r := call (RoundTrip N Sample.direct_filter (Sample.ctx_of Sample.full_writer) req) in
  fst r = Returns (Sample.ctx_of Sample.full_writer, None, Some (ExternalError "EOF")) /\
  snd r = [EvTransportRoundTrip "http://example.org/"] /\
  count_events is_log (snd r) = 0%nat.
Proof.
  apply (RoundTrip_forward_propagates_error
           {| dial := fun _ _ _ => inl Sample.rconn;
              transport_RoundTrip := fun _ _ => inr (ExternalError "EOF");
              FixRequestURL := fun r => r;
              glog_V2 := true |}
           Sample.direct_filter (Sample.ctx_of Sample.full_writer)
           {| Method := "POST"; Host := "example.org"; Proto := "HTTP/1.1";
              RemoteAddr := "10.0.0.9:51000"; URL_String := "http://example.org/" |}
           (ExternalError "EOF")).
  - discriminate.
  - reflexivity.
Defined.




(** X7.  The only connection the handler ever closes is the one the
    hijack of the inbound writer gave it, and it closes at most once; in
    particular it never closes the connection it dialed. *)
Theorem RoundTrip_closes_only_hijacked (N : Network) (f : Filter) (ctx : Context)
  (req : Request) :
  Forall (fun e => forall c, e = EvClose c -> as_Hijacker (ctx_rw ctx) = Some (inl c))
         (snd (call (RoundTrip N f ctx req))) /\
  (count_events is_close (snd (call (RoundTrip N f ctx req))) <= 1)%nat.
Proof.
  each_path N f ctx req.
  all: split; [repeat constructor; intros; congruence | vm_compute; lia].
Qed.

(** X8.  When a CONNECT request ends in an error although its dial
    succeeded (the writer lacks a capability, or the hijack fails), the
    connection that was dialed is left open: the handler made one dial
    and closed nothing. *)
Theorem RoundTrip_failed_tunnel_leaves_dialed_open (N : Network) (f : Filter)
  (ctx : Context) (req : Request) (df : http.DialFunc) (rconn : Conn) (e : error) :
  Method req = "CONNECT" ->
  http.Dial (transport f) = Some df ->
  dial N df "tcp" (Host req) = inl rconn ->
  fst (call (RoundTrip N f ctx req)) = Returns (ctx, None, Some e) ->
  count_events is_dial (snd (call (RoundTrip N f ctx req))) = 1%nat /\
  count_events is_close (snd (call (RoundTrip N f ctx req))) = 0%nat /\
  (e = NotHijacker \/ e = NotFlusher \/ exists cause, e = HijackError cause).
Proof.
  intros Hm Hd Hr.
  destruct (connect_log_quiet N req) as (_ & Hdl & _).
  assert (Hcl : count_events is_close (connect_log N req) = 0%nat)
    by (unfold connect_log; destruct (glog_V2 N); reflexivity).
  destruct (as_Hijacker (ctx_rw ctx)) as [[lconn | herr] |] eqn:Hh;
    [destruct (as_Flusher (ctx_rw ctx)) eqn:Hf | destruct (as_Flusher (ctx_rw ctx)) eqn:Hf |].
  - rewrite (RoundTrip_CONNECT_tunnel N f ctx req df rconn lconn Hm Hd Hr Hh Hf).
    discriminate.
  - rewrite (RoundTrip_CONNECT_not_flusher N f ctx req df rconn _ Hm Hd Hr Hh Hf).
    intros [= <-]. cbn [snd]. rewrite !count_events_app, Hdl, Hcl. repeat split; eauto.
  - rewrite (RoundTrip_CONNECT_hijack_error N f ctx req df rconn herr Hm Hd Hr Hh Hf).
    intros [= <-]. cbn [snd]. rewrite !count_events_app, Hdl, Hcl. repeat split; eauto.
  - rewrite (RoundTrip_CONNECT_not_flusher N f ctx req df rconn _ Hm Hd Hr Hh Hf).
    intros [= <-]. cbn [snd]. rewrite !count_events_app, Hdl, Hcl. repeat split; eauto.
  - rewrite (RoundTrip_CONNECT_not_hijacker N f ctx req df rconn Hm Hd Hr Hh).
    intros [= <-]. cbn [snd]. rewrite !count_events_app, Hdl, Hcl. repeat split; eauto.
Qed.

Lemma RoundTrip_failed_tunnel_leaves_dialed_open_witness :
  let r := call (RoundTrip (Sample.network true) Sample.direct_filter
                   (Sample.ctx_of Sample.broken_hijack_writer) Sample.connect_request) in
  count_events is_dial (snd r) = 1%nat /\
  count_events is_close (snd r) = 0%nat /\
  (HijackError (ExternalError "http: connection has been hijacked") = NotHijacker \/
   HijackError (ExternalError "http: connection has been hijacked") = NotFlusher \/
   exists cause,
     HijackError (ExternalError "http: connection has been hijacked") = HijackError cause).
Proof.
  apply (RoundTrip_failed_tunnel_leaves_dialed_open (Sample.network true)
           Sample.direct_filter (Sample.ctx_of Sample.broken_hijack_writer)
           Sample.connect_request
           (http.DialerDial (newDialer Sample.platform Sample.direct_config))
           Sample.rconn); reflexivity.
Defined.

(** X9.  A CONNECT request is answered with a response only when the
    whole tunnel sequence took place: the response is then the sentinel,
    the dial succeeded, the writer has both capabilities and gave up its
    connection, and the trace is dial, header, flush, hijack, the two
    copies in opposite directions, and the close of the inbound
    connection. *)
Theorem RoundTrip_CONNECT_response_means_tunnel (N : Network) (f : Filter) (ctx : Context)
  (req : Request) (ctx' : Context) (r : Response) (err : option error) :
  Method req = "CONNECT" ->
  fst (call (RoundTrip N f ctx req)) = Returns (ctx', Some r, err) ->
  r = DummyResponse /\ err = None /\
  as_Flusher (ctx_rw ctx) = true /\
  exists df rconn lconn,
    http.Dial (transport f) = Some df /\
    dial N df "tcp" (Host req) = inl rconn /\
    as_Hijacker (ctx_rw ctx) = Some (inl lconn) /\
    snd (call (RoundTrip N f ctx req)) =
      (connect_log N req ++
       [EvDial "tcp" (Host req); EvWriteHeader http.StatusOK; EvFlush; EvHijack;
        EvGo rconn lconn; EvIoCopy lconn rconn; EvClose lconn])%list.
Proof.
  intros Hm. apply String.eqb_eq in Hm. revert Hm.
  each_path N f ctx req; intros Hm Hret; try discriminate Hm; try discriminate Hret.
  all: injection Hret as <- <- <-; repeat split; eauto 10.
Qed.

Lemma RoundTrip_CONNECT_response_means_tunnel_witness :
  DummyResponse = DummyResponse /\ @None error = None /\
  as_Flusher (ctx_rw (Sample.ctx_of Sample.full_writer)) = true /\
  exists df rconn lconn,
    http.Dial (transport Sample.direct_filter) = Some df /\
    dial (Sample.network true) df "tcp" (Host Sample.connect_request) = inl rconn /\
    as_Hijacker (ctx_rw (Sample.ctx_of Sample.full_writer)) = Some (inl lconn) /\
    snd (call (RoundTrip (Sample.network true) Sample.direct_filter
                 (Sample.ctx_of Sample.full_writer) Sample.connect_request)) =
      (connect_log (Sample.network true) Sample.connect_request ++
       [EvDial "tcp" (Host Sample.connect_request); EvWriteHeader http.StatusOK; EvFlush;
        EvHijack; EvGo rconn lconn; EvIoCopy lconn rconn; EvClose lconn])%list.
Proof.
  apply (RoundTrip_CONNECT_response_means_tunnel (Sample.network true) Sample.direct_filter
           (Sample.ctx_of Sample.full_writer) Sample.connect_request
           (Sample.ctx_of Sample.full_writer) DummyResponse None); reflexivity.
Defined.

(** X10.  The inbound writer is written to only with status 200, at most
    once, each header write paired with one flush; and it is written to
    only for a CONNECT request whose dial succeeded on a writer that has
    both the hijack and the flush capability. *)
Theorem RoundTrip_acknowledges_only_dialed_tunnels (N : Network) (f : Filter)
  (ctx : Context) (req : Request) :
  Forall (fun e => forall status, e = EvWriteHeader status -> status = http.StatusOK)
         (snd (call (RoundTrip N f ctx req))) /\
  count_events is_header (snd (call (RoundTrip N f ctx req))) =
    count_events is_flush (snd (call (RoundTrip N f ctx req))) /\
  (count_events is_header (snd (call (RoundTrip N f ctx req))) <= 1)%nat /\
  (count_events writes_to_client (snd (call (RoundTrip N f ctx req))) <> 0%nat ->
   Method req = "CONNECT" /\
   as_Flusher (ctx_rw ctx) = true /\
   (exists hijacker, as_Hijacker (ctx_rw ctx) = Some hijacker) /\
   exists df rconn,
     http.Dial (transport f) = Some df /\ dial N df "tcp" (Host req) = inl rconn).
Proof.
  each_path N f ctx req.
  all: split; [repeat constructor; intros; congruence |].
  all: split; [reflexivity |].
  all: split; [vm_compute; lia |].
  all: intros Hw; try (exfalso; apply Hw; reflexivity).
  all: split; [now apply String.eqb_eq |]; repeat split; eauto.
Qed.

(** X11.  A request logs at most one line, and none at all when
    [glog.V(2)] is off; a CONNECT request with a dial function logs its
    line before anything else happens. *)
Theorem RoundTrip_logging (N : Network) (f : Filter) (ctx : Context) (req : Request) :
  (count_events is_log (snd (call (RoundTrip N f ctx req))) <= 1)%nat /\
  (glog_V2 N = false -> count_events is_log (snd (call (RoundTrip N f ctx req))) = 0%nat) /\
  (glog_V2 N = true -> Method req = "CONNECT" ->
   exists rest, snd (call (RoundTrip N f ctx req)) =
     EvLog connect_format
       [LogS (RemoteAddr req); LogS (Method req); LogS (Host req); LogS (Proto req)]
     :: rest /\ count_events is_log rest = 0%nat).
Proof.
  each_path N f ctx req.
  all: split; [vm_compute; lia |].
  all: split; [intros Hv; try discriminate Hv; reflexivity |].
  all: intros Hv Hm; try discriminate Hv.
  all: try (apply String.eqb_neq in Hmethod; contradiction).
  all: eexists; split; reflexivity.
Qed.

(** ** Further properties of the constructor *)

Section ProxySwitch.

Variable P : Platform.

(** The three ways the proxy switch can let the constructor go on. *)
Lemma installProxy_started d config tr tr' :
  installProxy P d config tr = Started tr' ->
  (Enabled (Proxy (Transport config)) = false /\ tr' = tr) \/
  (Enabled (Proxy (Transport config)) = true /\
   exists u, url_Parse P (URL (Proxy (Transport config))) = inl u /\
             native_scheme u = true /\
             tr' = http.set_DialTLS None (http.set_Dial None (http.set_Proxy (Some u) tr))) \/
  (Enabled (Proxy (Transport config)) = true /\
   exists u p, url_Parse P (URL (Proxy (Transport config))) = inl u /\
               native_scheme u = false /\
               proxy_FromURL P u d = inl p /\
               tr' = http.set_Proxy None (http.set_DialTLS None
                       (http.set_Dial (Some (http.ProxyDial p)) tr))).
Proof.
  unfold installProxy, native_scheme, mbind, startup_bind.
  destruct (Enabled _); [| intros [= <-]; now left].
  destruct (url_Parse P _) as [u | err]; [| discriminate].
  destruct (_ || _) eqn:Hn.
  - intros [= <-]. right; left. eauto.
  - destruct (proxy_FromURL P u d) as [p | err] eqn:Hfrom; [| discriminate].
    intros [= <-]. right; right. eauto 10.
Qed.

(** The two ways it can halt the process. *)
Lemma installProxy_fatal d config tr format culprit err :
  installProxy P d config tr = Fatal format culprit err ->
  Enabled (Proxy (Transport config)) = true /\
  ((url_Parse P (URL (Proxy (Transport config))) = inr err /\
    format = "url.Parse(%#v) error: %s" /\
    culprit = URL (Proxy (Transport config))) \/
   (exists u, url_Parse P (URL (Proxy (Transport config))) = inl u /\
              native_scheme u = false /\
              proxy_FromURL P u d = inr err /\
              format = "proxy.FromURL(%#v) error: %s" /\
              culprit = url.Raw u)).
Proof.
  unfold installProxy, native_scheme, mbind, startup_bind.
  destruct (Enabled _); [| discriminate].
  destruct (url_Parse P _) as [u | perr].
  - destruct (_ || _) eqn:Hn; [discriminate |].
    destruct (proxy_FromURL P u d) as [p | ferr] eqn:Hfrom; [discriminate |].
    intros [= <- <- <-]. split; [reflexivity |]. right. eauto 10.
  - intros [= <- <- <-]. split; [reflexivity |]. now left.
Qed.

Lemma installProxy_generic d config tr u p :
  Enabled (Proxy (Transport config)) = true ->
  url_Parse P (URL (Proxy (Transport config))) = inl u ->
  native_scheme u = false ->
  proxy_FromURL P u d = inl p ->
  installProxy P d config tr =
    Started (http.set_Proxy None (http.set_DialTLS None
               (http.set_Dial (Some (http.ProxyDial p)) tr))).
Proof.
  intros Hon Hparse Hn Hfrom. unfold installProxy, mbind, startup_bind.
  unfold native_scheme in Hn. now rewrite Hon, Hparse, Hn, Hfrom.
Qed.

Lemma NewFilter_fatal config format culprit err :
  NewFilter P config = Fatal format culprit err ->
  installProxy P (newDialer P config) config
    (newTransport (newDialer P config) config) = Fatal format culprit err.
Proof.
  unfold NewFilter, mbind, startup_bind.
  destruct (installProxy P _ config _); [discriminate | now intros [= -> -> ->]].
Qed.

End ProxySwitch.

(** X12.  The transport of every filter the constructor returns has
    exactly one way out: either a proxy URL or a dial function, never
    both and never neither; it never has a TLS dial function, and the
    filter keeps the configuration it was built from. *)
Theorem NewFilter_proxy_xor_dial (P : Platform) (config : Config) (f : Filter)
  (e : option error) :
  NewFilter P config = Started (f, e) ->
  (http.Proxy (transport f) = None <-> http.Dial (transport f) <> None) /\
  http.DialTLS (transport f) = None /\
  Filter_Config f = config /\
  e = None.
Proof.
  intros Hnew.
  destruct (NewFilter_started P _ _ _ Hnew) as (He & Hc & Hinst).
  destruct (installProxy_started P _ _ _ _ Hinst)
    as [[_ ->] | [(_ & u & _ & _ & ->) | (_ & u & p & _ & _ & _ & ->)]]; cbn.
  all: repeat split; try assumption; try reflexivity; intros; congruence.
Qed.

Lemma NewFilter_proxy_xor_dial_witness :
  (http.Proxy (transport Sample.direct_filter) = None <->
   http.Dial (transport Sample.direct_filter) <> None) /\
  http.DialTLS (transport Sample.direct_filter) = None /\
  Filter_Config Sample.direct_filter = Sample.direct_config /\
  @None error = None.
Proof.
  apply (NewFilter_proxy_xor_dial Sample.platform Sample.direct_config
           Sample.direct_filter None).
  reflexivity.
Defined.

(** X13.  With upstream proxying enabled and a URL of any scheme other
    than http and https that the proxy-dialer factory accepts, the
    constructor returns a filter whose transport has no proxy URL and
    dials through the proxy dialer the factory made around the resilient
    dialer; a CONNECT request is dialed through that proxy dialer, so its
    failure is what the request returns. *)
Theorem NewFilter_generic_proxy_dials_through_it (P : Platform) (config : Config)
  (u : url.URL) (p : proxy.Dialer) :
  Enabled (Proxy (Transport config)) = true ->
  url_Parse P (URL (Proxy (Transport config))) = inl u ->
  native_scheme u = false ->
  proxy_FromURL P u (newDialer P config) = inl p ->
  exists f,
    NewFilter P config = Started (f, None) /\
    http.Proxy (transport f) = None /\
    http.Dial (transport f) = Some (http.ProxyDial p) /\
    forall (N : Network) (ctx : Context) (req : Request) (err : error),
      Method req = "CONNECT" ->
      dial N (http.ProxyDial p) "tcp" (Host req) = inr err ->
      call (RoundTrip N f ctx req) =
        (Returns (ctx, None, Some err),
         (connect_log N req ++ [EvDial "tcp" (Host req)])%list).
Proof.
  intros Hon Hparse Hn Hfrom.
  eexists. split.
  { unfold NewFilter. rewrite (installProxy_generic P _ _ _ u p Hon Hparse Hn Hfrom).
    reflexivity. }
  cbn [transport http.Proxy http.Dial http.set_DialTLS http.set_Dial http.set_Proxy].
  split; [reflexivity |]. split; [reflexivity |].
  intros N ctx req err Hm Hr.
  now apply RoundTrip_CONNECT_dial_error with (df := http.ProxyDial p).
Qed.

Lemma NewFilter_generic_proxy_dials_through_it_witness :
  exists f,
    NewFilter Sample.platform Sample.socks_proxy_config = Started (f, None) /\
    http.Proxy (transport f) = None /\
    http.Dial (transport f) =
      Some (http.ProxyDial
              {| proxy.proxy_url := {| url.Scheme := "socks5";
                                       url.Raw := "socks5://127.0.0.1:1080" |};
                 proxy.forward := newDialer Sample.platform Sample.socks_proxy_config |}) /\
    forall (N : Network) (ctx : Context) (req : Request) (err : error),
      Method req = "CONNECT" ->
      dial N (http.ProxyDial
                {| proxy.proxy_url := {| url.Scheme := "socks5";
                                         url.Raw := "socks5://127.0.0.1:1080" |};
                   proxy.forward := newDialer Sample.platform Sample.socks_proxy_config |})
           "tcp" (Host req) = inr err ->
      call (RoundTrip N f ctx req) =
        (Returns (ctx, None, Some err),
         (connect_log N req ++ [EvDial "tcp" (Host req)])%list).
Proof.
  apply (NewFilter_generic_proxy_dials_through_it Sample.platform Sample.socks_proxy_config
           {| url.Scheme := "socks5"; url.Raw := "socks5://127.0.0.1:1080" |}
           {| proxy.proxy_url := {| url.Scheme := "socks5";
                                    url.Raw := "socks5://127.0.0.1:1080" |};
              proxy.forward := newDialer Sample.platform Sample.socks_proxy_config |});
    reflexivity.
Defined.

(** X14.  With upstream proxying disabled the proxy URL is never looked
    at: whatever its text, the constructor returns a filter whose
    transport has no proxy URL and dials through the resilient dialer
    built from the configuration. *)
Theorem NewFilter_disabled_proxy_ignores_URL (P : Platform) (config : Config) :
  Enabled (Proxy (Transport config)) = false ->
  exists f,
    NewFilter P config = Started (f, None) /\
    http.Proxy (transport f) = None /\
    http.Dial (transport f) = Some (http.DialerDial (newDialer P config)) /\
    forall P', LocalInterfaceIPs P' = LocalInterfaceIPs P ->
               IP_String P' = IP_String P ->
               NewFilter P' config = Started (f, None).
Proof.
  intros Hoff. eexists. split; [apply NewFilter_direct, Hoff |].
  repeat split.
  intros P' Hips Hstr. rewrite (NewFilter_direct P' config Hoff).
  unfold newDialer. now rewrite Hips, Hstr.
Qed.

Lemma NewFilter_disabled_proxy_ignores_URL_witness :
  exists f,
    NewFilter Sample.platform (Sample.config false "://127.0.0.1:8087" false) =
      Started (f, None) /\
    http.Proxy (transport f) = None /\
    http.Dial (transport f) =
      Some (http.DialerDial
              (newDialer Sample.platform (Sample.config false "://127.0.0.1:8087" false))) /\
    forall P', LocalInterfaceIPs P' = LocalInterfaceIPs Sample.platform ->
               IP_String P' = IP_String Sample.platform ->
               NewFilter P' (Sample.config false "://127.0.0.1:8087" false) =
                 Started (f, None).
Proof.
  apply (NewFilter_disabled_proxy_ignores_URL Sample.platform
           (Sample.config false "://127.0.0.1:8087" false)).
  reflexivity.
Defined.

(** X15.  The constructor halts the process only over the proxy URL:
    proxying is then enabled and either the URL failed to parse, the
    fatal message naming the configured text and carrying the parser's
    error, or it parsed to a scheme other than http and https that the
    proxy-dialer factory refused, the message carrying the factory's
    error. *)
Theorem NewFilter_halts_only_over_proxy_URL (P : Platform) (config : Config)
  (format culprit : string) (err : error) :
  NewFilter P config = Fatal format culprit err ->
  Enabled (Proxy (Transport config)) = true /\
  ((url_Parse P (URL (Proxy (Transport config))) = inr err /\
    format = "url.Parse(%#v) error: %s" /\
    culprit = URL (Proxy (Transport config))) \/
   (exists u, url_Parse P (URL (Proxy (Transport config))) = inl u /\
              native_scheme u = false /\
              proxy_FromURL P u (newDialer P config) = inr err /\
              format = "proxy.FromURL(%#v) error: %s" /\
              culprit = url.Raw u)).
Proof.
  intros Hfatal. apply NewFilter_fatal in Hfatal.
  exact (installProxy_fatal P _ _ _ _ _ _ Hfatal).
Qed.

Lemma NewFilter_halts_only_over_proxy_URL_witness :
  Enabled (Proxy (Transport Sample.bad_scheme_config)) = true /\
  ((url_Parse Sample.platform (URL (Proxy (Transport Sample.bad_scheme_config))) =
      inr (ExternalError "proxy: unknown scheme") /\
    "proxy.FromURL(%#v) error: %s" = "url.Parse(%#v) error: %s" /\
    "gopher://127.0.0.1:70" = URL (Proxy (Transport Sample.bad_scheme_config))) \/
   (exists u, url_Parse Sample.platform (URL (Proxy (Transport Sample.bad_scheme_config))) =
                inl u /\
              native_scheme u = false /\
              proxy_FromURL Sample.platform u
                (newDialer Sample.platform Sample.bad_scheme_config) =
                inr (ExternalError "proxy: unknown scheme") /\
              "proxy.FromURL(%#v) error: %s" = "proxy.FromURL(%#v) error: %s" /\
              "gopher://127.0.0.1:70" = url.Raw u)).
Proof.
  apply (NewFilter_halts_only_over_proxy_URL Sample.platform Sample.bad_scheme_config
           "proxy.FromURL(%#v) error: %s" "gopher://127.0.0.1:70"
           (ExternalError "proxy: unknown scheme")).
  reflexivity.
Defined.

(** *** Durations *)

Lemma wrap_in_range z : Int64.in_range (Int64.wrap z).
Proof.
  unfold Int64.in_range, Int64.min_int, Int64.max_int, Int64.wrap, Int64.modulus.
  pose proof (Z.mod_pos_bound (z + 2 ^ 63) (2 ^ 64) ltac:(lia)). lia.
Qed.

(** A number of seconds survives the conversion to a duration exactly
    when it is at most 9223372036 in magnitude. *)
Lemma seconds_exact_iff s :
  Int64.mul s time.Second = s * time.Second <-> -9223372036 <= s <= 9223372036.
Proof.
  unfold Int64.mul. split.
  - intros Heq. pose proof (wrap_in_range (s * time.Second)) as Hr.
    rewrite Heq in Hr.
    unfold Int64.in_range, Int64.min_int, Int64.max_int in Hr.
    rewrite Second_in_nanoseconds in Hr. lia.
  - intros Hs. apply wrap_small.
    unfold Int64.in_range, Int64.min_int, Int64.max_int.
    rewrite Second_in_nanoseconds. lia.
Qed.



(** X17.  The resilient dialer a returned transport dials through takes
    its retry count, dual-stack flag and DNS cache capacity from the
    configuration unchanged, and each of its three durations (dial
    timeout, keep-alive, DNS cache expiry) is the configured number of
    seconds exactly when that number is at most 9223372036 in magnitude;
    beyond that the [int64] product has wrapped. *)
Theorem NewFilter_dialer_settings (P : Platform) (config : Config) (f : Filter)
  (e : option error) (d : dialer.Dialer) :
  NewFilter P config = Started (f, e) ->
  http.Dial (transport f) = Some (http.DialerDial d) ->
  dialer.RetryTimes d = RetryTimes (Dialer (Transport config)) /\
  net.DualStack (dialer.Dialer_ d) = DualStack (Dialer (Transport config)) /\
  lrucache.capacity (dialer.DNSCache d) = DNSCacheSize (Dialer (Transport config)) /\
  (net.Timeout (dialer.Dialer_ d) = Timeout (Dialer (Transport config)) * time.Second <->
   -9223372036 <= Timeout (Dialer (Transport config)) <= 9223372036) /\
  (net.KeepAlive (dialer.Dialer_ d) = KeepAlive (Dialer (Transport config)) * time.Second <->
   -9223372036 <= KeepAlive (Dialer (Transport config)) <= 9223372036) /\
  (dialer.DNSCacheExpiry d = DNSCacheExpiry (Dialer (Transport config)) * time.Second <->
   -9223372036 <= DNSCacheExpiry (Dialer (Transport config)) <= 9223372036).
Proof.
  intros Hnew Hdial.
  destruct (NewFilter_started P _ _ _ Hnew) as (_ & _ & Hinst).
  rewrite (installProxy_direct_dial P _ _ _ _ d Hinst eq_refl Hdial).
  cbn. do 3 (split; [reflexivity |]).
  split; [apply seconds_exact_iff |]. split; apply seconds_exact_iff.
Qed.

Lemma NewFilter_dialer_settings_witness :
  let d := newDialer Sample.platform Sample.direct_config in
  let c := Dialer (Transport Sample.direct_config) in
  dialer.RetryTimes d = RetryTimes c /\
  net.DualStack (dialer.Dialer_ d) = DualStack c /\
  lrucache.capacity (dialer.DNSCache d) = DNSCacheSize c /\
  (net.Timeout (dialer.Dialer_ d) = Timeout c * time.Second <->
   -9223372036 <= Timeout c <= 9223372036) /\
  (net.KeepAlive (dialer.Dialer_ d) = KeepAlive c * time.Second <->
   -9223372036 <= KeepAlive c <= 9223372036) /\
  (dialer.DNSCacheExpiry d = DNSCacheExpiry c * time.Second <->
   -9223372036 <= DNSCacheExpiry c <= 9223372036).
Proof.
  apply (NewFilter_dialer_settings Sample.platform Sample.direct_config
           Sample.direct_filter None); reflexivity.
Defined.

(** X18.  Whatever delay is configured, the dialer's retry delay is the
    product of that delay with 1000, cut to an integer and taken as a
    number of seconds: while that integer is at most 9223372036 in
    magnitude the delay is a whole number of seconds, never a fraction of
    one. *)
Theorem NewFilter_RetryDelay_whole_seconds (P : Platform) (config : Config) :
  let n := Float32.to_int64
             (Float32.mul (RetryDelay (Dialer (Transport config))) (Float32.of_Z 1000)) in
  (dialer.RetryDelay (newDialer P config) = n * time.Second <->
   -9223372036 <= n <= 9223372036) /\
  (-9223372036 <= n <= 9223372036 ->
   dialer.RetryDelay (newDialer P config) mod time.Second = 0 /\
   (dialer.RetryDelay (newDialer P config) = 0 \/
    time.Second <= Z.abs (dialer.RetryDelay (newDialer P config)))).
Proof.
  intros n. cbn [newDialer dialer.RetryDelay]. fold n.
  split; [apply seconds_exact_iff |].
  intros Hn. rewrite (proj2 (seconds_exact_iff n) Hn).
  split; [apply Z.mod_mul; discriminate |].
  rewrite Second_in_nanoseconds. lia.
Qed.

(** X19.  A configured delay whose thousandfold is, as a [float32], a
    finite number below one in magnitude gives no delay at all: the
    conversion to an integer cuts it to zero. *)
Theorem NewFilter_RetryDelay_below_one_vanishes (P : Platform) (config : Config)
  (s : bool) (m : positive) (e : Z) :
  Float32.mul (RetryDelay (Dialer (Transport config))) (Float32.of_Z 1000) =
    S754_finite s m e ->
  e < 0 ->
  Zpos m < 2 ^ (- e) ->
  dialer.RetryDelay (newDialer P config) = 0.
Proof.
  intros Hmul He Hm. cbn [newDialer dialer.RetryDelay]. rewrite Hmul.
  unfold Float32.to_int64.
  destruct (Z.leb_spec 0 e) as [Hge | _]; [lia |].
  rewrite Z.shiftr_div_pow2 by lia.
  rewrite Z.div_small by lia.
  destruct s; reflexivity.
Qed.

Lemma NewFilter_RetryDelay_below_one_vanishes_witness :
  dialer.RetryDelay
    (newDialer Sample.platform
       {| Transport :=
            {| Dialer := {| Timeout := 30; KeepAlive := 30; DualStack := false;
                            RetryTimes := 2; RetryDelay := Float32.of_scaled 1 (-11);
                            DNSCacheExpiry := 3600; DNSCacheSize := 8192 |};
               Proxy := Proxy (Transport Sample.direct_config);
               TLSClientConfig := TLSClientConfig (Transport Sample.direct_config);
               DisableKeepAlives := false;
               DisableCompression := false;
               TLSHandshakeTimeout := 30;
               MaxIdleConnsPerHost := 8 |} |}) = 0.
Proof.
  apply (NewFilter_RetryDelay_below_one_vanishes Sample.platform _ false 16384000 (-25)).
  - reflexivity.
  - reflexivity.
  - reflexivity.
Defined.

(** *** The loopback set *)

Lemma loopback_fold (str : net.IP -> string) (ips : list net.IP) :
  forall (acc : gset string) (addr : string),
    addr ∈ fold_left (fun addrs ip => {[ str ip ]} ∪ addrs) ips acc <->
    addr ∈ acc \/ exists ip, In ip ips /\ str ip = addr.
Proof.
  induction ips as [| ip ips IH]; intros acc addr; cbn.
  - split; [now left | intros [Hin | (ip & [] & _)]; exact Hin].
  - rewrite IH. rewrite elem_of_union, elem_of_singleton. split.
    + intros [[-> | Hacc] | (ip' & Hin & Hstr)]; eauto.
    + intros [Hacc | (ip' & [-> | Hin] & Hstr)]; eauto.
Qed.

(** X20.  When the enumeration of the interface addresses succeeds, the
    loopback set of the dialer holds the text of each enumerated address
    and nothing else; an address listed twice is held once. *)
Theorem newDialer_loopback_addresses (P : Platform) (config : Config)
  (ips : list net.IP) :
  LocalInterfaceIPs P = inl ips ->
  (forall addr : string,
     addr ∈ dialer.LoopbackAddrs (newDialer P config) <->
     exists ip, In ip ips /\ IP_String P ip = addr) /\
  (size (dialer.LoopbackAddrs (newDialer P config)) <= length ips)%nat.
Proof.
  intros Hips. unfold newDialer. cbn [dialer.LoopbackAddrs]. rewrite Hips. split.
  - intros addr. rewrite loopback_fold. split.
    + intros [Hempty | Hex]; [set_solver | exact Hex].
    + intros Hex. now right.
  - assert (Hsize : forall (l : list net.IP) (acc : gset string),
              (size (fold_left (fun addrs ip => {[ IP_String P ip ]} ∪ addrs) l acc)
               <= length l + size acc)%nat).
    { induction l as [| ip l IH]; intros acc; cbn; [lia |].
      specialize (IH ({[ IP_String P ip ]} ∪ acc)).
      pose proof (size_union_alt {[ IP_String P ip ]} acc) as Hu.
      assert (Hle : (size ({[ IP_String P ip ]} ∪ acc) <= 1 + size acc)%nat).
      { rewrite Hu, size_singleton.
        assert (Hsub : acc ∖ {[ IP_String P ip ]} ⊆ acc)
          by (apply subseteq_difference_l; reflexivity).
        apply subseteq_size in Hsub. lia. }
      lia. }
    specialize (Hsize ips ∅). rewrite size_empty in Hsize. lia.
Qed.

Lemma newDialer_loopback_addresses_witness :
  (forall addr : string,
     addr ∈ dialer.LoopbackAddrs (newDialer Sample.platform Sample.direct_config) <->
     exists ip, In ip [[127; 0; 0; 1]; [192; 168; 1; 7]] /\
                IP_String Sample.platform ip = addr) /\
  (size (dialer.LoopbackAddrs (newDialer Sample.platform Sample.direct_config)) <=
   length [[127; 0; 0; 1]; [192; 168; 1; 7]])%nat.
Proof.
  apply (newDialer_loopback_addresses Sample.platform Sample.direct_config
           [[127; 0; 0; 1]; [192; 168; 1; 7]]).
  reflexivity.
Defined.

(** *** Constructor and dispatcher together *)

(** X21.  For a filter that came out of the constructor, a request makes
    the handler panic exactly when it is a CONNECT request and the filter
    was configured with an enabled upstream proxy whose URL has the
    scheme http or https. *)
Theorem NewFilter_CONNECT_panics_iff_native_proxy (P : Platform) (N : Network)
  (config : Config) (f : Filter) (e : option error) (ctx : Context) (req : Request) :
  NewFilter P config = Started (f, e) ->
  ((exists why, fst (call (RoundTrip N f ctx req)) = Panics why) <->
   Method req = "CONNECT" /\
   Enabled (Proxy (Transport config)) = true /\
   exists u, url_Parse P (URL (Proxy (Transport config))) = inl u /\
             native_scheme u = true).
Proof.
  intros Hnew.
  destruct (NewFilter_started P _ _ _ Hnew) as (_ & _ & Hinst).
  rewrite call_panics_iff_nil_dial.
  destruct (installProxy_started P _ _ _ _ Hinst)
    as [[Hoff Htr] | [(Hon & u & Hparse & Hn & Htr) | (Hon & u & p & Hparse & Hn & _ & Htr)]];
    rewrite Htr; cbn.
  - split; [intros [_ Hd]; discriminate | intros (_ & Hon & _); congruence].
  - split; [intros [Hm _]; eauto 10 | intros (Hm & _); auto].
  - split; [intros [_ Hd]; discriminate |].
    intros (_ & _ & u' & Hparse' & Hn'). congruence.
Qed.

Lemma NewFilter_CONNECT_panics_iff_native_proxy_witness :
  (exists why,
     fst (call (RoundTrip (Sample.network true) Sample.direct_filter
                  (Sample.ctx_of Sample.full_writer) Sample.connect_request)) = Panics why) <->
  Method Sample.connect_request = "CONNECT" /\
  Enabled (Proxy (Transport Sample.direct_config)) = true /\
  exists u, url_Parse Sample.platform (URL (Proxy (Transport Sample.direct_config))) = inl u /\
            native_scheme u = true.
Proof.
  apply (NewFilter_CONNECT_panics_iff_native_proxy Sample.platform (Sample.network true)
           Sample.direct_config Sample.direct_filter None).
  reflexivity.
Defined.

(** ** Properties of the registration *)

Section RegistrationFacts.

Variable P : Platform.
Variable R : Registrar.

Lemma init_cases :
  match UnmarshallJson R filterName "direct.json" zeroConfig with
  | inr err => init P R = Fatal "storage.ReadJsonConfig(%#v) failed: %s" "direct.json" err
  | inl config =>
      match Register R filterName with
      | Some err => init P R = Fatal "Register(%#v) error: %s" filterName err
      | None => init P R = Started {| registered_name := filterName;
                                      New := fun _ => NewFilter P config |}
      end
  end.
Proof.
  unfold init, mbind, startup_bind.
  change (filterName ++ ".json")%string with "direct.json".
  destruct (UnmarshallJson R filterName "direct.json" zeroConfig) as [config | err];
    [| reflexivity].
  destruct (Register R filterName); reflexivity.
Qed.

End RegistrationFacts.

(** X22.  [init] halts the process exactly when the configuration file
    direct.json cannot be read from the store of the filter, or when it
    can but the registry refuses the name; a failed read is reported with
    the file name and the store's error, and the registry's answer then
    plays no part. *)
Theorem init_fatal_iff (P : Platform) (R : Registrar) (format culprit : string)
  (err : error) :
  init P R = Fatal format culprit err <->
  (UnmarshallJson R filterName "direct.json" zeroConfig = inr err /\
   format = "storage.ReadJsonConfig(%#v) failed: %s" /\ culprit = "direct.json") \/
  ((exists config, UnmarshallJson R filterName "direct.json" zeroConfig = inl config) /\
   Register R filterName = Some err /\
   format = "Register(%#v) error: %s" /\ culprit = "direct").
Proof.
  pose proof (init_cases P R) as Hc.
  destruct (UnmarshallJson R filterName "direct.json" zeroConfig) as [config | lerr].
  - destruct (Register R filterName) as [rerr |]; rewrite Hc; split.
    + intros [= <- <- <-]. right. eauto.
    + intros [(Hl & _) | (_ & [= <-] & -> & ->)]; [discriminate | reflexivity].
    + discriminate.
    + intros [(Hl & _) | (_ & Hr & _)]; discriminate.
  - rewrite Hc. split.
    + intros [= <- <- <-]. now left.
    + intros [([= <-] & -> & ->) | ((config & Hl) & _)]; [reflexivity | discriminate].
Qed.

(** X23.  When [init] goes through, what it registered carries the name
    direct, and its [New] builds filters from the configuration that was
    read: every filter it yields reports the registered name as its
    [FilterName], holds that configuration, and comes with a [nil]
    error. *)
Theorem init_registers_constructor (P : Platform) (R : Registrar)
  (entry : RegisteredFilter) :
  init P R = Started entry ->
  registered_name entry = "direct" /\
  Register R (registered_name entry) = None /\
  exists config,
    UnmarshallJson R "direct" "direct.json" zeroConfig = inl config /\
    New entry tt = NewFilter P config /\
    forall f e, New entry tt = Started (f, e) ->
                FilterName f = registered_name entry /\
                Filter_Config f = config /\ e = None.
Proof.
  pose proof (init_cases P R) as Hc. change filterName with "direct" in Hc.
  destruct (UnmarshallJson R "direct" "direct.json" zeroConfig) as [config | lerr];
    [| rewrite Hc; discriminate].
  destruct (Register R "direct") as [rerr |] eqn:Hreg; rewrite Hc; [discriminate |].
  intros [= <-]. cbn. split; [reflexivity |]. split; [exact Hreg |].
  exists config. split; [reflexivity |]. split; [reflexivity |].
  intros f e Hnew. destruct (NewFilter_started P _ _ _ Hnew) as (He & Hcfg & _).
  auto.
Qed.

Lemma init_registers_constructor_witness :
  let entry := {| registered_name := filterName;
                  New := fun _ => NewFilter Sample.platform Sample.direct_config |} in
  let R := Sample_registrar.registrar (Some Sample.direct_config) ["autoproxy"; "gae"] in
  registered_name entry = "direct" /\
  Register R (registered_name entry) = None /\
  exists config,
    UnmarshallJson R "direct" "direct.json" zeroConfig = inl config /\
    New entry tt = NewFilter Sample.platform config /\
    forall f e, New entry tt = Started (f, e) ->
                FilterName f = registered_name entry /\
                Filter_Config f = config /\ e = None.
Proof.
  apply (init_registers_constructor Sample.platform
           (Sample_registrar.registrar (Some Sample.direct_config) ["autoproxy"; "gae"])
           {| registered_name := filterName;
              New := fun _ => NewFilter Sample.platform Sample.direct_config |}).
  reflexivity.
Defined.

(** A store without the file, and a registry in which the name is
    taken. *)
Example init_failures :
  init Sample.platform (Sample_registrar.registrar None []) =
    Fatal "storage.ReadJsonConfig(%#v) failed: %s" "direct.json"
      (ExternalError "unexpected end of JSON input") /\
  init Sample.platform (Sample_registrar.registrar (Some Sample.direct_config) ["direct"]) =
    Fatal "Register(%#v) error: %s" "direct" (ExternalError "filter already registered").
Proof. split; reflexivity. Qed.
